(** * Session-token authentication backend: a shallow embedding

    The development follows the Python sources of the backend:

    - [models/base_model.py] and [models/user.py]: the [User] object, its
      overloaded attribute assignment and [verify_password];
    - [models/engine/db.py]: the storage facade over the [users] table;
    - [api/v1/app.py]: the token configuration, the Redis blocklist,
      [check_if_token_revoked], [revoke_token] and the error callbacks;
    - [api/v1/views/users.py]: the views [register], [login],
      [refresh_token], [logout], [change_password], [delete_user],
      [request_password_reset], [reset_password_with_token] and
      [token_status].

    Conventions of the embedding.  A Python [str] is the Rocq string of its
    UTF-8 bytes, so [.encode()] and [.decode()] on a [str] are the identity
    and [len] counts the code points of that encoding.  Time is a number of seconds in [Z], read from
    the server clock once per request.  Random draws ([uuid.uuid4()],
    [bcrypt.gensalt()]) are explicit arguments of the function that makes
    them.  An uncaught Python exception is the [Raise] outcome. *)

From stdpp Require Import base strings gmap list.
From Stdlib Require Import ZArith Lia Ascii String.

Local Open Scope string_scope.

(** ** Python values, exceptions *)

Inductive pyval : Type :=
  | PNone
  | PStr (s : string)
  | PInt (n : Z)
  | PTime (t : Z).

#[global] Instance pyval_eq_dec : EqDecision pyval.
Proof. solve_decision. Defined.

(** Truth value of an object in a condition: [None], the empty string and
    the number zero are falsy, a [datetime] is truthy. *)
Definition truthy (v : pyval) : bool :=
  match v with
  | PNone => false
  | PStr EmptyString => false
  | PStr _ => true
  | PInt n => negb (n =? 0)%Z
  | PTime _ => true
  end.

Inductive exn : Type :=
  | AttributeError
  | ValueError
  | TypeError.

Inductive result (A : Type) : Type :=
  | Ok (a : A)
  | Raise (e : exn).
Arguments Ok {A} a.
Arguments Raise {A} e.

Definition bind {A B : Type} (r : result A) (k : A -> result B) : result B :=
  match r with
  | Ok a => k a
  | Raise e => Raise e
  end.

Notation "x <- r ;; k" := (bind r (fun x => k))
  (at level 100, r at next level, right associativity).

(** [value.encode()]: only a [str] has the method. *)
Definition encode (v : pyval) : result string :=
  match v with
  | PStr s => Ok s
  | _ => Raise AttributeError
  end.

(** ** The bcrypt primitive

    [bcrypt] is an external package.  [hashpw password salt] is the hash of
    a password under a salt drawn by [gensalt()], or raises (a [ValueError]
    for a password of more than 72 bytes); [checkpw password hashed] answers
    with a boolean, or raises (a [ValueError], "Invalid salt") when [hashed]
    is not a bcrypt hash. *)
Class Bcrypt : Type := {
  hashpw : string -> string -> result string;
  checkpw : string -> string -> result bool
}.

(** ** [models/base_model.py], [models/user.py] *)

(** An instance is its attribute dictionary. *)
Abbreviation User := (gmap string pyval).

(** Reading a mapped column that was never assigned gives [None]. *)
Definition getattr (self : User) (name : string) : pyval :=
  default PNone (self !! name).

(** [super().__setattr__(name, value)] *)
Definition object_setattr (self : User) (name : string) (value : pyval) : User :=
  <[name := value]> self.

Section UserModel.
Context `{Bcrypt}.

(** [User.__setattr__].  [salt] is the result of [bcrypt.gensalt()], used
    only on the hashing path.  The inner assignment to [password_hash]
    re-enters [__setattr__] with another name and so reaches
    [super().__setattr__]. *)
Definition User_setattr (salt : string) (self : User) (name : string)
    (value : pyval) : result User :=
  if decide (name = "password") then
    if truthy value then
      pw <- encode value;;
      hashed <- hashpw pw salt;;
      Ok (object_setattr self "password_hash" (PStr hashed))
    else Ok self
  else Ok (object_setattr self name value).

(** [User.verify_password] *)
Definition verify_password (self : User) (password : pyval) : result bool :=
  pw <- encode password;;
  hashed <- encode (getattr self "password_hash");;
  checkpw pw hashed.

(** [BaseModel.__init__] as the views call it, [User()] without keyword
    arguments: [uuid] is [str(uuid.uuid4())], [now] is
    [datetime.utcnow()].  The three assignments pass through
    [User.__setattr__] with names other than [password]. *)
Definition User_init (uuid : string) (now : Z) : User :=
  object_setattr
    (object_setattr
       (object_setattr ∅ "id" (PStr uuid))
       "created_at" (PTime now))
    "updated_at" (PTime now).

(** A run of attribute assignments [self.name = value], each with the salt
    it would draw. *)
Fixpoint assign_all (self : User) (l : list (string * pyval * string))
    : result User :=
  match l with
  | [] => Ok self
  | (name, value, salt) :: l' =>
      self' <- User_setattr salt self name value;;
      assign_all self' l'
  end.

End UserModel.

(** A stand-in for bcrypt used to run the model on concrete data: the hash
    is the tag ["$2b$"], the salt, a separator and the password; a password
    of more than 72 bytes is refused. *)
Definition toy_hashpw (password salt : string) : result string :=
  if (72 <? String.length password)%nat then Raise ValueError
  else Ok ("$2b$" ++ salt ++ "$" ++ password).

Fixpoint after_dollar (s : string) : option string :=
  match s with
  | EmptyString => None
  | String "$"%char s' => Some s'
  | String _ s' => after_dollar s'
  end.

Definition toy_checkpw (password hashed : string) : result bool :=
  match hashed with
  | String "$"%char (String "2"%char (String "b"%char (String "$"%char rest))) =>
      match after_dollar rest with
      | Some pw => Ok (String.eqb password pw)
      | None => Raise ValueError
      end
  | _ => Raise ValueError
  end.

Definition toy_bcrypt : Bcrypt :=
  {| hashpw := toy_hashpw; checkpw := toy_checkpw |}.

(** ** The application state

    Two external stores carry all state: the [users] table behind the
    storage facade and the Redis database holding the blocklist.  [calls]
    records, in program order, the writes a view issued to them. *)

(** A Redis database: each key has a value and the instant it expires at. *)
Abbreviation Redis := (gmap string (string * Z)).

Inductive call : Type :=
  | RedisSet (key value : string) (ex : Z)
  | StorageNew (obj : User)
  | StorageDelete (obj : User)
  | StorageSave.

Record State : Type := mkState {
  users : list User;
  jwt_redis_blocklist : Redis;
  calls : list call
}.

(** [GET key] at instant [now]: the key is still answered at the instant it
    expires at and reads as absent afterwards. *)
Definition redis_get (r : Redis) (now : Z) (key : string) : option string :=
  match r !! key with
  | Some (value, expire_at) =>
      if (now <=? expire_at)%Z then Some value else None
  | None => None
  end.

(** [SET key value EX ex] at instant [now]. *)
Definition redis_set (r : Redis) (now : Z) (key value : string) (ex : Z) : Redis :=
  <[key := (value, (now + ex)%Z)]> r.

(** ** [models/engine/db.py]

    A query result is a row together with its position in the table; the
    position stands for the identity of the loaded object, so that a later
    assignment or deletion followed by [save] reaches that same row. *)

(** [DB.filter_by(User, field=value)]: the first row whose column equals
    the value. *)
Definition DB_filter_by (s : State) (field : string) (value : pyval)
    : option (nat * User) :=
  list_find (fun u => getattr u field = value) (users s).

(** [DB.exists(User, field=value)] *)
Definition DB_exists (s : State) (field : string) (value : pyval) : bool :=
  bool_decide (DB_filter_by s field value ≠ None).

(** [DB.get(User, id)] *)
Definition DB_get (s : State) (id : pyval) : option (nat * User) :=
  match id with
  | PNone => None
  | _ => list_find (fun u => getattr u "id" = id) (users s)
  end.

(** [DB.new(obj)] then [DB.save()].  The column constraints of the table
    ([nullable=False] on username, email and password_hash, [unique] on
    email) are not part of the model: the row is appended whatever it
    holds.  [register], the only caller, inserts a record whose username,
    email and password_hash are set, after finding no record with the
    email. *)
Definition DB_new_save (s : State) (obj : User) : State :=
  {| users := users s ++ [obj];
     jwt_redis_blocklist := jwt_redis_blocklist s;
     calls := calls s ++ [StorageNew obj; StorageSave] |}.

(** An assignment to the loaded object at position [i], then [DB.save()]. *)
Definition DB_update_save (s : State) (i : nat) (obj : User) : State :=
  {| users := <[i := obj]> (users s);
     jwt_redis_blocklist := jwt_redis_blocklist s;
     calls := calls s ++ [StorageSave] |}.

(** [DB.delete(obj)] then [DB.save()], for the object loaded from
    position [i]. *)
Definition DB_delete_save (s : State) (i : nat) (obj : User) : State :=
  {| users := delete i (users s);
     jwt_redis_blocklist := jwt_redis_blocklist s;
     calls := calls s ++ [StorageDelete obj; StorageSave] |}.

(** ** Session tokens *)

Record Claims : Type := mkClaims {
  user_id : pyval;
  jti : string;
  type : string;
  fresh : bool;
  iat : Z;
  exp : Z
}.

(** An encoded token: its payload and the key its signature was computed
    with (a signature checks exactly under the key that made it). *)
Record Token : Type := mkToken {
  payload : Claims;
  signed_with : string
}.

(** [get_jwt_identity()]: the claim named by [JWT_IDENTITY_CLAIM]. *)
Definition get_jwt_identity (jwt : Claims) : pyval := user_id jwt.

Inductive AuthHeader : Type :=
  | NoHeader
  | Malformed
  | Bearer (t : Token).

Inductive VerificationError : Type :=
  | MissingToken
  | InvalidToken
  | ExpiredToken
  | InsufficientFreshness
  | RevokedToken.

Inductive verified : Type :=
  | Verified (jwt : Claims)
  | Rejected (e : VerificationError).

(** ** Responses *)

Unset Elimination Schemes.
Inductive json : Type :=
  | JNull
  | JBool (b : bool)
  | JNum (n : Z)
  | JStr (s : string)
  | JTok (t : Token)
  | JObj (fields : list (string * json)).
Set Elimination Schemes.

Abbreviation Response := (json * nat)%type.

Definition jsonify (fields : list (string * json)) : json := JObj fields.

Definition json_of (v : pyval) : json :=
  match v with
  | PNone => JNull
  | PStr s => JStr s
  | PInt n => JNum n
  | PTime t => JNum t
  end.

(** ** [api/v1/app.py] *)

(** [timedelta(hours=1)] and [timedelta(days=30)], in seconds. *)
Definition JWT_ACCESS_TOKEN_EXPIRES : Z := 1 * 3600.
Definition JWT_REFRESH_TOKEN_EXPIRES : Z := 30 * 86400.

(** [check_if_token_revoked] *)
Definition check_if_token_revoked (r : Redis) (now : Z) (jwt_payload : Claims) : bool :=
  let token_in_redis := redis_get r now (jti jwt_payload) in
  bool_decide (token_in_redis ≠ None).

Definition revoked_token_callback : Response :=
  (jsonify [("error", JStr "Token has been revoked")], 401).

Definition expired_token_callback : Response :=
  (jsonify [("error", JStr "Token has expired")], 401).

Definition invalid_token_callback : Response :=
  (jsonify [("error", JStr "Invalid token")], 401).

Definition missing_token_callback : Response :=
  (jsonify [("error", JStr "Authorization token is required")], 401).

(** No loader is registered for a token that lacks freshness: the answer
    is the package's default one. *)
Definition needs_fresh_token_callback : Response :=
  (jsonify [("msg", JStr "Fresh token required")], 401).

(** The local [ttl] of [revoke_token]: "Set TTL based on token type". *)
Definition ttl (token_type : string) : Z :=
  if decide (token_type = "refresh") then JWT_REFRESH_TOKEN_EXPIRES
  else JWT_ACCESS_TOKEN_EXPIRES.

(** [revoke_token], called at instant [now]. *)
Definition revoke_token (s : State) (now : Z) (jti : string) (token_type : string) : State :=
  let ttl := ttl token_type in
  {| users := users s;
     jwt_redis_blocklist := redis_set (jwt_redis_blocklist s) now jti "" ttl;
     calls := calls s ++ [RedisSet jti "" ttl] |}.

(** The answer sent for each way verification can fail. *)
Definition jwt_error_response (e : VerificationError) : Response :=
  match e with
  | MissingToken => missing_token_callback
  | InvalidToken => invalid_token_callback
  | ExpiredToken => expired_token_callback
  | InsufficientFreshness => needs_fresh_token_callback
  | RevokedToken => revoked_token_callback
  end.

Section Tokens.
(** [app.config["JWT_SECRET_KEY"]] *)
Variable JWT_SECRET_KEY : string.

(** Modelled from the spec: [create_access_token] belongs to the
    flask_jwt_extended package, which is not under src/.  Operation
    issueAccess of the Token Issuer: type access, issued now, expiring one
    access lifetime later, freshness as given, a new token id ([jti] is
    the uuid drawn for it), signed with the configured secret. *)
Definition create_access_token (now : Z) (jti : string) (identity : pyval)
    (fresh : bool) : Token :=
  {| payload := {| user_id := identity; jti := jti; type := "access";
                   fresh := fresh; iat := now;
                   exp := (now + JWT_ACCESS_TOKEN_EXPIRES)%Z |};
     signed_with := JWT_SECRET_KEY |}.

(** Modelled from the spec: [create_refresh_token] belongs to the
    flask_jwt_extended package, which is not under src/.  Operation
    issueRefresh of the Token Issuer: type refresh, never fresh, expiring
    one refresh lifetime after issuance. *)
Definition create_refresh_token (now : Z) (jti : string) (identity : pyval)
    : Token :=
  {| payload := {| user_id := identity; jti := jti; type := "refresh";
                   fresh := false; iat := now;
                   exp := (now + JWT_REFRESH_TOKEN_EXPIRES)%Z |};
     signed_with := JWT_SECRET_KEY |}.

(** Modelled from the spec: the decorator [jwt_required(refresh, fresh)]
    belongs to the flask_jwt_extended package, which is not under src/.
    Token Verifier, checks in order, stopping at the first failure:
    decode and check the signature; require expiresAt > now; if a refresh
    token is required, require that type; if a fresh token is required,
    require fresh = true (reported with the reason InsufficientFreshness
    of the error taxonomy); look the token id up in the revocation store
    through the registered loader [check_if_token_revoked]. *)
Definition jwt_required (refresh fresh_required : bool) (s : State) (now : Z)
    (h : AuthHeader) : verified :=
  match h with
  | NoHeader => Rejected MissingToken
  | Malformed => Rejected InvalidToken
  | Bearer t =>
      if negb (bool_decide (signed_with t = JWT_SECRET_KEY)) then
        Rejected InvalidToken
      else
        let jwt := payload t in
        if negb (now <? exp jwt)%Z then Rejected ExpiredToken
        else if refresh && negb (bool_decide (type jwt = "refresh")) then
          Rejected InvalidToken
        else if fresh_required && negb (fresh jwt) then
          Rejected InsufficientFreshness
        else if check_if_token_revoked (jwt_redis_blocklist s) now jwt then
          Rejected RevokedToken
        else Verified jwt
  end.

End Tokens.

Arguments jwt_required : simpl never.

(** ** [api/v1/views/users.py] *)

(** What a request carries: whether its body is JSON, the decoded body (or
    the form fields), and the Authorization header.  A field of a JSON body
    is a string, a number (a boolean counts as 1 or 0) or null; form fields
    are strings.  JSON arrays and objects as field values are left out:
    where a view lets one through it ends, as a number does, in an exception
    of [.encode()] or of the SQL layer. *)
Record Request : Type := mkRequest {
  is_json : bool;
  data : gmap string pyval;
  authorization : AuthHeader
}.

(** What the server draws while it handles one request: the clock and the
    values [uuid.uuid4()] and [bcrypt.gensalt()] return. *)
Record Env : Type := mkEnv {
  clock : Z;
  uuid4 : string;
  uuid4' : string;
  gensalt : string
}.

(** [data.get(key)] *)
Definition dict_get (d : gmap string pyval) (key : string) : pyval :=
  match d !! key with
  | Some v => v
  | None => PNone
  end.

(** The bytes [10xxxxxx] continue a code point begun by an earlier byte. *)
Definition is_continuation (c : ascii) : bool :=
  match c with
  | Ascii _ _ _ _ _ _ b6 b7 => b7 && negb b6
  end.

(** The number of code points of a UTF-8 string. *)
Fixpoint utf8_length (s : string) : nat :=
  match s with
  | EmptyString => 0
  | String c s' =>
      if is_continuation c then utf8_length s' else S (utf8_length s')
  end.

(** [len(value)]: the number of characters of a [str]; a number, [None] or
    a [datetime] has no length. *)
Definition len (v : pyval) : result nat :=
  match v with
  | PStr s => Ok (utf8_length s)
  | _ => Raise TypeError
  end.

(** The answer of the framework when [request.get_json()] is called on a
    body that is not JSON. *)
Definition unsupported_media_type : json * nat :=
  (JStr "Unsupported Media Type", 415).

(** The block "Handle both form data and JSON" opening four of the views:
    the data, or the 400 answer for an empty body. *)
Definition load_data (request : Request) : Response + gmap string pyval :=
  if is_json request then
    if bool_decide (data request = ∅) then
      inl (jsonify [("error", JStr "Invalid JSON data")], 400)
    else inr (data request)
  else
    if bool_decide (data request = ∅) then
      inl (jsonify [("error", JStr "No form data provided")], 400)
    else inr (data request).

Section Views.
Context `{Bcrypt}.
Variable JWT_SECRET_KEY : string.
(** [url_for(endpoint, _external=True)]; the routes are registered in the
    package [api.v1.views]. *)
Variable url_for : string -> string.

Definition register (env : Env) (s : State) (request : Request)
    : result (Response * State) :=
  match load_data request with
  | inl resp => Ok (resp, s)
  | inr data =>
      let username := dict_get data "username" in
      let email := dict_get data "email" in
      let password := dict_get data "password" in
      if negb (forallb truthy [username; email; password]) then
        Ok ((jsonify [("error", JStr "Missing fields")], 400), s)
      else
      n <- len username;;
      if (n <? 3)%nat || (30 <? n)%nat then
        Ok ((jsonify [("error",
               JStr "Username must be between 3 and 30 characters")], 400), s)
      else if DB_exists s "email" email then
        Ok ((jsonify [("error", JStr "Email already registered")], 400), s)
      else if bool_decide (DB_filter_by s "username" username ≠ None) then
        Ok ((jsonify [("error", JStr "Username already exists")], 400), s)
      else
        let user := User_init (uuid4 env) (clock env) in
        user <- User_setattr (gensalt env) user "username" username;;
        user <- User_setattr (gensalt env) user "email" email;;
        user <- User_setattr (gensalt env) user "password" password;;
        Ok ((jsonify [("message", JStr "User registered successfully");
                      ("userId", json_of (getattr user "id"))], 201),
            DB_new_save s user)
  end.

Definition login (env : Env) (s : State) (request : Request)
    : result (Response * State) :=
  match load_data request with
  | inl resp => Ok (resp, s)
  | inr data =>
      let email := dict_get data "email" in
      let password := dict_get data "password" in
      if negb (truthy email) || negb (truthy password) then
        Ok ((jsonify [("error", JStr "Missing credentials")], 400), s)
      else
        match DB_filter_by s "email" email with
        | None =>
            Ok ((jsonify [("error", JStr "Invalid email or password")], 401), s)
        | Some (_, user) =>
            ok <- verify_password user password;;
            if negb ok then
              Ok ((jsonify [("error", JStr "Invalid email or password")], 401), s)
            else
              let access_token :=
                create_access_token JWT_SECRET_KEY (clock env) (uuid4 env)
                  (getattr user "id") true in
              let refresh_token :=
                create_refresh_token JWT_SECRET_KEY (clock env) (uuid4' env)
                  (getattr user "id") in
              Ok ((jsonify [("message", JStr "Login successful");
                            ("access_token", JTok access_token);
                            ("refresh_token", JTok refresh_token);
                            ("user", JObj
                               [("id", json_of (getattr user "id"));
                                ("username", json_of (getattr user "username"));
                                ("email", json_of (getattr user "email"))])],
                   200), s)
        end
  end.

Definition refresh_token (env : Env) (s : State) (request : Request)
    : result (Response * State) :=
  match jwt_required JWT_SECRET_KEY true false s (clock env)
          (authorization request) with
  | Rejected e => Ok (jwt_error_response e, s)
  | Verified jwt =>
      let identity := get_jwt_identity jwt in
      let access_token :=
        create_access_token JWT_SECRET_KEY (clock env) (uuid4 env)
          identity false in
      Ok ((jsonify [("access_token", JTok access_token)], 200), s)
  end.

Definition logout (env : Env) (s : State) (request : Request)
    : result (Response * State) :=
  match jwt_required JWT_SECRET_KEY false false s (clock env)
          (authorization request) with
  | Rejected e => Ok (jwt_error_response e, s)
  | Verified jwt =>
      let jti := jti jwt in
      let token_type := type jwt in
      let s := revoke_token s (clock env) jti token_type in
      Ok ((jsonify [("message", JStr "Successfully logged out")], 200), s)
  end.

Definition change_password (env : Env) (s : State) (request : Request)
    : result (Response * State) :=
  match jwt_required JWT_SECRET_KEY false true s (clock env)
          (authorization request) with
  | Rejected e => Ok (jwt_error_response e, s)
  | Verified jwt =>
      let user_id := get_jwt_identity jwt in
      match DB_get s user_id with
      | None => Ok ((jsonify [("error", JStr "User not found")], 404), s)
      | Some (i, user) =>
          if negb (is_json request) then Ok (unsupported_media_type, s)
          else
          let data := data request in
          if bool_decide (data = ∅) then
            Ok ((jsonify [("error", JStr "Invalid JSON data")], 400), s)
          else
            let current_password := dict_get data "current_password" in
            let new_password := dict_get data "new_password" in
            let confirm_password := dict_get data "confirm_password" in
            if negb (forallb truthy
                       [current_password; new_password; confirm_password]) then
              Ok ((jsonify [("error",
                     JStr "All password fields are required")], 400), s)
            else
              ok <- verify_password user current_password;;
              if negb ok then
                Ok ((jsonify [("error",
                       JStr "Current password is incorrect")], 400), s)
              else if bool_decide (new_password ≠ confirm_password) then
                Ok ((jsonify [("error",
                       JStr "New passwords do not match")], 400), s)
              else
              n <- len new_password;;
              if (n <? 6)%nat then
                Ok ((jsonify [("error",
                       JStr "Password must be at least 6 characters long")],
                     400), s)
              else
                user <- User_setattr (gensalt env) user "password" new_password;;
                Ok ((jsonify [("message",
                       JStr "Password changed successfully")], 200),
                    DB_update_save s i user)
      end
  end.

Definition delete_user (env : Env) (s : State) (request : Request)
    (user_id : string) : result (Response * State) :=
  match jwt_required JWT_SECRET_KEY false true s (clock env)
          (authorization request) with
  | Rejected e => Ok (jwt_error_response e, s)
  | Verified jwt =>
      let current_user_id := get_jwt_identity jwt in
      if bool_decide (current_user_id ≠ PStr user_id) then
        Ok ((jsonify [("error", JStr "Unauthorized to delete this user")],
             403), s)
      else
        match DB_get s (PStr user_id) with
        | None => Ok ((jsonify [("error", JStr "User not found")], 404), s)
        | Some (i, user) =>
            let jti := jti jwt in
            let token_type := type jwt in
            let s := revoke_token s (clock env) jti token_type in
            let s := DB_delete_save s i user in
            Ok ((jsonify [("message",
                   JStr ("User " ++ user_id ++ " deleted successfully"))],
                 200), s)
        end
  end.
Definition request_password_reset (env : Env) (s : State) (request : Request)
    : result (Response * State) :=
  match load_data request with
  | inl resp => Ok (resp, s)
  | inr data =>
      let email := dict_get data "email" in
      if negb (truthy email) then
        Ok ((jsonify [("error", JStr "Email is required")], 400), s)
      else
        match DB_filter_by s "email" email with
        | None => Ok ((jsonify [("error", JStr "User not found")], 404), s)
        | Some (i, user) =>
            let reset_token := uuid4 env in
            user <- User_setattr (gensalt env) user "reset_token"
                      (PStr reset_token);;
            Ok ((jsonify [("message", JStr "Password reset token generated");
                          ("reset_token", JStr reset_token);
                          ("_links", JObj [("reset", JObj [("href",
                             JStr (url_for "app_views.reset_password_with_token"))])])],
                 200),
                DB_update_save s i user)
        end
  end.

Definition reset_password_with_token (env : Env) (s : State)
    (request : Request) : result (Response * State) :=
  match load_data request with
  | inl resp => Ok (resp, s)
  | inr data =>
      let token := dict_get data "token" in
      let new_password := dict_get data "new_password" in
      let confirm_password := dict_get data "confirm_password" in
      if negb (truthy token) || negb (truthy new_password)
         || negb (truthy confirm_password) then
        Ok ((jsonify [("error", JStr "Missing fields")], 400), s)
      else if bool_decide (new_password ≠ confirm_password) then
        Ok ((jsonify [("error", JStr "Passwords do not match")], 400), s)
      else
      n <- len new_password;;
      if (n <? 6)%nat then
        Ok ((jsonify [("error",
               JStr "Password must be at least 6 characters long")], 400), s)
      else
        match DB_filter_by s "reset_token" token with
        | None =>
            Ok ((jsonify [("error", JStr "Invalid or expired token")], 400), s)
        | Some (i, user) =>
            (* try: ... except Exception: *)
            match (user <- User_setattr (gensalt env) user "password"
                             new_password;;
                   User_setattr (gensalt env) user "reset_token" PNone) with
            | Raise _ =>
                Ok ((jsonify [("error", JStr "Failed to update password")],
                     500), s)
            | Ok user =>
                Ok ((jsonify [("message", JStr "Password reset successfully");
                              ("_links", JObj [("login", JObj [("href",
                                 JStr (url_for "app_views.login"))])])], 200),
                    DB_update_save s i user)
            end
        end
  end.

Definition token_status (env : Env) (s : State) (request : Request)
    : result (Response * State) :=
  match jwt_required JWT_SECRET_KEY false false s (clock env)
          (authorization request) with
  | Rejected e => Ok (jwt_error_response e, s)
  | Verified jwt_claims =>
      let user_id := get_jwt_identity jwt_claims in
      let jti := jti jwt_claims in
      let is_blacklisted :=
        bool_decide (redis_get (jwt_redis_blocklist s) (clock env) jti ≠ None) in
      Ok ((jsonify [("user_id", json_of user_id);
                    ("token_type", JStr (type jwt_claims));
                    ("fresh", JBool (fresh jwt_claims));
                    ("jti", JStr jti);
                    ("is_blacklisted", JBool is_blacklisted);
                    ("issued_at", JNum (iat jwt_claims));
                    ("expires_at", JNum (exp jwt_claims))], 200), s)
  end.

End Views.

(** A run of later revocations, each with its instant, token id and type. *)
Fixpoint revoke_all (s : State) (l : list (Z * string * string)) : State :=
  match l with
  | [] => s
  | (now, jti, token_type) :: l' =>
      revoke_all (revoke_token s now jti token_type) l'
  end.

(** Reading a field of a JSON object. *)
Fixpoint assoc (key : string) (fields : list (string * json)) : option json :=
  match fields with
  | [] => None
  | (k, v) :: rest => if decide (k = key) then Some v else assoc key rest
  end.

Definition json_field (j : json) (key : string) : option json :=
  match j with
  | JObj fields => assoc key fields
  | _ => None
  end.

(** ** [api/v1/views/users.py], the remaining token-protected views *)

Section ProfileViews.
Context `{Bcrypt}.
Variable JWT_SECRET_KEY : string.

Definition get_profile (env : Env) (s : State) (request : Request)
    : result (Response * State) :=
  match jwt_required JWT_SECRET_KEY false false s (clock env)
          (authorization request) with
  | Rejected e => Ok (jwt_error_response e, s)
  | Verified jwt =>
      let user_id := get_jwt_identity jwt in
      match DB_get s user_id with
      | None => Ok ((jsonify [("error", JStr "User not found")], 404), s)
      | Some (_, user) =>
          Ok ((jsonify [("id", json_of (getattr user "id"));
                        ("username", json_of (getattr user "username"));
                        ("email", json_of (getattr user "email"));
                        ("profile_picture_url",
                         json_of (getattr user "profile_picture_url"))],
               200), s)
      end
  end.

Definition update_profile (env : Env) (s : State) (request : Request)
    : result (Response * State) :=
  match jwt_required JWT_SECRET_KEY false false s (clock env)
          (authorization request) with
  | Rejected e => Ok (jwt_error_response e, s)
  | Verified jwt =>
      let user_id := get_jwt_identity jwt in
      match DB_get s user_id with
      | None => Ok ((jsonify [("error", JStr "User not found")], 404), s)
      | Some (i, user) =>
          if negb (is_json request) then Ok (unsupported_media_type, s)
          else
          let data := data request in
          if bool_decide (data = ∅) then
            Ok ((jsonify [("error", JStr "Invalid JSON data")], 400), s)
          else
            let new_username := dict_get data "username" in
            if negb (truthy new_username) then
              Ok ((jsonify [("error", JStr "Username required")], 400), s)
            else
            n <- len new_username;;
            if (n <? 3)%nat || (30 <? n)%nat
            then
              Ok ((jsonify [("error",
                     JStr "Username must be between 3 and 30 characters")],
                   400), s)
            else if bool_decide
                      (DB_filter_by s "username" new_username ≠ None) then
              Ok ((jsonify [("error", JStr "Username already taken")], 400), s)
            else
              user <- User_setattr (gensalt env) user "username" new_username;;
              Ok ((jsonify [("message", JStr "Profile updated successfully")],
                   200),
                  DB_update_save s i user)
      end
  end.

Definition verify_token (env : Env) (s : State) (request : Request)
    : result (Response * State) :=
  match jwt_required JWT_SECRET_KEY false false s (clock env)
          (authorization request) with
  | Rejected e => Ok (jwt_error_response e, s)
  | Verified jwt_claims =>
      let user_id := get_jwt_identity jwt_claims in
      match DB_get s user_id with
      | None => Ok ((jsonify [("error", JStr "User not found")], 404), s)
      | Some (_, user) =>
          Ok ((jsonify [("valid", JBool true);
                        ("user_id", json_of user_id);
                        ("token_type", JStr (type jwt_claims));
                        ("fresh", JBool (fresh jwt_claims));
                        ("jti", JStr (jti jwt_claims))], 200), s)
      end
  end.

End ProfileViews.

(** ** The route table

    The routes the views are registered under by their decorators, the
    upload of a profile picture apart (it works on the file system). *)
Inductive endpoint : Type :=
  | POST_auth_register
  | POST_auth_login
  | POST_auth_token_refresh
  | POST_auth_logout
  | GET_users_me
  | PUT_users_me
  | PUT_users_me_password
  | DELETE_users (user_id : string)
  | POST_auth_reset_password
  | POST_auth_reset_password_confirm
  | GET_auth_verify_token
  | GET_auth_token_status.

Section Routes.
Context `{Bcrypt}.
Variable JWT_SECRET_KEY : string.
Variable url_for : string -> string.

Definition handle (ep : endpoint) (env : Env) (s : State) (request : Request)
    : result (Response * State) :=
  match ep with
  | POST_auth_register => register env s request
  | POST_auth_login => login JWT_SECRET_KEY env s request
  | POST_auth_token_refresh => refresh_token JWT_SECRET_KEY env s request
  | POST_auth_logout => logout JWT_SECRET_KEY env s request
  | GET_users_me => get_profile JWT_SECRET_KEY env s request
  | PUT_users_me => update_profile JWT_SECRET_KEY env s request
  | PUT_users_me_password => change_password JWT_SECRET_KEY env s request
  | DELETE_users user_id => delete_user JWT_SECRET_KEY env s request user_id
  | POST_auth_reset_password => request_password_reset url_for env s request
  | POST_auth_reset_password_confirm =>
      reset_password_with_token url_for env s request
  | GET_auth_verify_token => verify_token JWT_SECRET_KEY env s request
  | GET_auth_token_status => token_status JWT_SECRET_KEY env s request
  end.

(** The state after a request: an uncaught exception commits nothing. *)
Definition state_after (ep : endpoint) (env : Env) (s : State)
    (request : Request) : State :=
  match handle ep env s request with
  | Ok (_, s') => s'
  | Raise _ => s
  end.

(** A sequence of requests, served one after the other. *)
Fixpoint serve (s : State) (l : list (endpoint * Env * Request)) : State :=
  match l with
  | [] => s
  | (ep, env, request) :: l' => serve (state_after ep env s request) l'
  end.

End Routes.

(** The requirements each protected route passes to [jwt_required]:
    whether a refresh token and whether a fresh token is required. *)
Definition protection (ep : endpoint) : option (bool * bool) :=
  match ep with
  | POST_auth_token_refresh => Some (true, false)
  | POST_auth_logout | GET_users_me | PUT_users_me
  | GET_auth_verify_token | GET_auth_token_status => Some (false, false)
  | PUT_users_me_password | DELETE_users _ => Some (false, true)
  | POST_auth_register | POST_auth_login
  | POST_auth_reset_password | POST_auth_reset_password_confirm => None
  end.

(** ** Sample data

    A small deployment used to run the model: one stored user, alice, with
    password "secret1"; a second record, bob, that never received a
    password.  No route stores such a record and the column is declared
    [nullable=False]: bob stands for a row written past the application,
    and is used where a second user is needed or where [verify_password]
    meets a record without a hash. *)

Definition sample_secret : string := "k".

Definition sample_url_for (endpoint : string) : string :=
  "http://localhost/" ++ endpoint.

Definition alice : User :=
  <["password_hash" := PStr "$2b$salt$secret1"]>
    (<["email" := PStr "a@x.com"]>
       (<["username" := PStr "alice"]>
          (<["updated_at" := PTime 1000]>
             (<["created_at" := PTime 1000]>
                (<["id" := PStr "id-1"]> ∅))))).

Definition bob : User :=
  <["email" := PStr "b@x.com"]>
    (<["username" := PStr "bob"]>
       (<["updated_at" := PTime 1000]>
          (<["created_at" := PTime 1000]>
             (<["id" := PStr "id-2"]> ∅)))).

Definition sample_state : State :=
  {| users := [alice]; jwt_redis_blocklist := ∅; calls := [] |}.

Definition sample_state_bob : State :=
  {| users := [alice; bob]; jwt_redis_blocklist := ∅; calls := [] |}.


Definition sample_env (now : Z) : Env :=
  {| clock := now; uuid4 := "j-a"; uuid4' := "j-r"; gensalt := "salt2" |}.

Definition sample_request (fields : list (string * string)) (h : AuthHeader)
    : Request :=
  {| is_json := true; data := list_to_map (prod_map id PStr <$> fields);
     authorization := h |}.

(** The pair a login of alice at instant 0 issues. *)
Definition sample_access : Token :=
  create_access_token sample_secret 0 "j-a" (PStr "id-1") true.

Definition sample_refresh : Token :=
  create_refresh_token sample_secret 0 "j-r" (PStr "id-1").

(** The access token a refresh at instant 50 issues. *)
Definition sample_stale : Token :=
  create_access_token sample_secret 50 "j-a" (PStr "id-1") false.

(** The routes of the sample deployment. *)
Definition sample_handle : endpoint -> Env -> State -> Request
    -> result (Response * State) :=
  @handle toy_bcrypt sample_secret sample_url_for.

Definition sample_serve : State -> list (endpoint * Env * Request) -> State :=
  @serve toy_bcrypt sample_secret sample_url_for.

Definition login_request (email password : string) : Request :=
  sample_request [("email", email); ("password", password)] NoHeader.

Definition register_carol : Request :=
  sample_request [("username", "carol"); ("email", "c@x.com");
                  ("password", "secret3")] NoHeader.

Definition change_to_secret2 : Request :=
  sample_request [("current_password", "secret1"); ("new_password", "secret2");
                  ("confirm_password", "secret2")] (Bearer sample_access).

Definition confirm_with (token : string) : Request :=
  sample_request [("token", token); ("new_password", "secret2");
                  ("confirm_password", "secret2")] NoHeader.

(** alice with a pending reset token. *)
Definition sample_state_pending : State :=
  {| users := [<["reset_token" := PStr "j-a"]> alice];
     jwt_redis_blocklist := ∅; calls := [] |}.

(** Requests of several kinds, served between instants 150 and 170. *)
Definition sample_traffic : list (endpoint * Env * Request) :=
  [(POST_auth_login, sample_env 150, login_request "a@x.com" "secret1");
   (POST_auth_register, sample_env 160, register_carol);
   (POST_auth_reset_password, sample_env 170,
    sample_request [("email", "a@x.com")] NoHeader)].

(** * Properties *)

(** ** Request data *)

Lemma dict_get_nonempty (d : gmap string pyval) (key : string) :
  truthy (dict_get d key) = true -> d ≠ ∅.
Proof.
  unfold dict_get. intros Ht ->. rewrite lookup_empty in Ht. discriminate.
Qed.

Lemma load_data_inr (request : Request) :
  data request ≠ ∅ -> load_data request = inr (data request).
Proof.
  intros Hne. unfold load_data.
  rewrite bool_decide_eq_false_2 by done. by destruct (is_json request).
Qed.


(** ** The password attribute *)

Section UserProperties.
Context `{Bcrypt}.

Lemma User_setattr_other (salt : string) (self : User) (name : string)
    (value : pyval) :
  name ≠ "password" ->
  User_setattr salt self name value = Ok (object_setattr self name value).
Proof. intros Hn. unfold User_setattr. by rewrite decide_False. Qed.

Lemma User_setattr_keeps_password (salt : string) (self self' : User)
    (name : string) (value : pyval) :
  User_setattr salt self name value = Ok self' ->
  self' !! "password" = self !! "password".
Proof.
  unfold User_setattr. destruct (decide (name = "password")) as [->|Hn].
  - destruct (truthy value).
    + destruct value; simpl; try discriminate.
      destruct (hashpw s salt); simpl; [|discriminate].
      intros [= <-]. unfold object_setattr. by rewrite lookup_insert_ne.
    + by intros [= <-].
  - intros [= <-]. unfold object_setattr. by rewrite lookup_insert_ne.
Qed.

Lemma assign_all_keeps_password (l : list (string * pyval * string))
    (self self' : User) :
  assign_all self l = Ok self' -> self' !! "password" = self !! "password".
Proof.
  revert self. induction l as [|[[name value] salt] l IH]; intros self; simpl.
  - by intros [= <-].
  - destruct (User_setattr salt self name value) as [u|e] eqn:Hset; simpl;
      [|discriminate].
    intros Hrest. rewrite (IH _ Hrest).
    by eapply User_setattr_keeps_password.
Qed.

(** C10.  Assigning a falsy value (in particular [None] or the empty
    string) to [password] leaves the object as it was, so [password_hash]
    keeps its value; an object built by [User()] and any run of attribute
    assignments never holds a [password] attribute; and a non-empty string
    assigned to [password] is what re-derives [password_hash]. *)
Theorem password_assignment (salt uuid : string) (now : Z) (self obj : User)
    (value : pyval) (l : list (string * pyval * string)) :
  truthy value = false ->
  assign_all (User_init uuid now) l = Ok obj ->
  User_setattr salt self "password" value = Ok self
  /\ User_setattr salt self "password" PNone = Ok self
  /\ User_setattr salt self "password" (PStr "") = Ok self
  /\ obj !! "password" = None
  /\ forall pw, pw ≠ "" ->
       User_setattr salt self "password" (PStr pw)
       = (hashed <- hashpw pw salt;;
          Ok (<["password_hash" := PStr hashed]> self)).
Proof.
  intros Hfalsy Hrun. split; [|split; [|split; [|split]]].
  - unfold User_setattr. simpl. by rewrite Hfalsy.
  - reflexivity.
  - reflexivity.
  - rewrite (assign_all_keeps_password _ _ _ Hrun).
    unfold User_init, object_setattr. by rewrite !lookup_insert_ne.
  - intros pw Hpw. unfold User_setattr. simpl.
    destruct pw; [done|]. reflexivity.
Qed.

End UserProperties.

(** ** The revocation store *)

Lemma redis_get_set_eq (r : Redis) (now t : Z) (key value : string) (ex : Z) :
  (t < now + ex)%Z -> redis_get (redis_set r now key value ex) t key = Some value.
Proof.
  intros Ht. unfold redis_get, redis_set. rewrite lookup_insert_eq.
  by rewrite (proj2 (Z.leb_le _ _)) by lia.
Qed.



Lemma revoke_all_other (l : list (Z * string * string)) (s : State) (key : string) :
  Forall (fun r => r.1.2 ≠ key) l ->
  jwt_redis_blocklist (revoke_all s l) !! key = jwt_redis_blocklist s !! key.
Proof.
  revert s. induction l as [|[[now j] ty] l IH]; intros s Hall; simpl; [done|].
  inversion Hall as [|? ? Hhd Htl]; subst. simpl in Hhd.
  rewrite IH by done. simpl. unfold redis_set. by rewrite lookup_insert_ne.
Qed.


Section VerifierProperties.
Variable JWT_SECRET_KEY : string.

(** Verification reads the store only at the token's own id. *)
Lemma jwt_required_frame (refresh fresh_required : bool) (s s' : State)
    (t : Z) (tok : Token) :
  jwt_redis_blocklist s' !! jti (payload tok)
    = jwt_redis_blocklist s !! jti (payload tok) ->
  jwt_required JWT_SECRET_KEY refresh fresh_required s' t (Bearer tok)
  = jwt_required JWT_SECRET_KEY refresh fresh_required s t (Bearer tok).
Proof.
  intros Heq. unfold jwt_required, check_if_token_revoked, redis_get.
  by rewrite Heq.
Qed.

Lemma jwt_required_listed (refresh fresh_required : bool) (s : State)
    (t : Z) (tok : Token) (value : string) :
  redis_get (jwt_redis_blocklist s) t (jti (payload tok)) = Some value ->
  (exists e, jwt_required JWT_SECRET_KEY refresh fresh_required s t (Bearer tok)
             = Rejected e)
  /\ (signed_with tok = JWT_SECRET_KEY ->
      (t < exp (payload tok))%Z ->
      (refresh = true -> type (payload tok) = "refresh") ->
      (fresh_required = true -> fresh (payload tok) = true) ->
      jwt_required JWT_SECRET_KEY refresh fresh_required s t (Bearer tok)
      = Rejected RevokedToken)
  /\ (signed_with tok = JWT_SECRET_KEY ->
      (exp (payload tok) <= t)%Z ->
      jwt_required JWT_SECRET_KEY refresh fresh_required s t (Bearer tok)
      = Rejected ExpiredToken).
Proof.
  intros Hget. unfold jwt_required, check_if_token_revoked. rewrite Hget.
  rewrite (bool_decide_eq_true_2 (Some value ≠ None)) by done.
  split; [|split].
  - repeat (case_match; eauto).
  - intros Hsig Hexp Hty Hfr.
    rewrite bool_decide_eq_true_2 by done. simpl.
    rewrite (proj2 (Z.ltb_lt _ _) Hexp). simpl.
    destruct refresh; simpl.
    + rewrite bool_decide_eq_true_2 by auto. simpl.
      destruct fresh_required; simpl; [by rewrite Hfr|done].
    + destruct fresh_required; simpl; [by rewrite Hfr|done].
  - intros Hsig Hexp.
    rewrite bool_decide_eq_true_2 by done. simpl.
    by rewrite (proj2 (Z.ltb_ge _ _) Hexp).
Qed.

(** C1 (as amended).  Once [revoke_token] has stored the id of a token,
    and whatever other tokens are revoked afterwards, every verification
    of that token made before the store entry expires is rejected: with
    RevokedToken as long as the token passes the earlier checks
    (signature, expiry, required type and freshness), and with
    ExpiredToken from the token's own expiry on, which the entry
    outlives. *)
Theorem revoked_token_rejected (s : State) (now t : Z) (tok : Token)
    (later : list (Z * string * string)) (refresh fresh_required : bool) :
  Forall (fun r => r.1.2 ≠ jti (payload tok)) later ->
  (t < now + ttl (type (payload tok)))%Z ->
  let s' := revoke_all
              (revoke_token s now (jti (payload tok)) (type (payload tok)))
              later in
  redis_get (jwt_redis_blocklist s') t (jti (payload tok)) = Some ""
  /\ (exists e, jwt_required JWT_SECRET_KEY refresh fresh_required s' t
                  (Bearer tok) = Rejected e)
  /\ (signed_with tok = JWT_SECRET_KEY ->
      (t < exp (payload tok))%Z ->
      (refresh = true -> type (payload tok) = "refresh") ->
      (fresh_required = true -> fresh (payload tok) = true) ->
      jwt_required JWT_SECRET_KEY refresh fresh_required s' t (Bearer tok)
      = Rejected RevokedToken)
  /\ (signed_with tok = JWT_SECRET_KEY ->
      (exp (payload tok) <= t)%Z ->
      jwt_required JWT_SECRET_KEY refresh fresh_required s' t (Bearer tok)
      = Rejected ExpiredToken).
Proof.
  intros Hlater Ht s'.
  assert (Hget : redis_get (jwt_redis_blocklist s') t (jti (payload tok))
                 = Some "").
  { unfold redis_get. subst s'. rewrite revoke_all_other by done.
    simpl. fold (redis_get
      (redis_set (jwt_redis_blocklist s) now (jti (payload tok)) ""
         (ttl (type (payload tok)))) t (jti (payload tok))).
    by apply redis_get_set_eq. }
  split; [done|]. by eapply jwt_required_listed.
Qed.

(** C4 (as amended).  The entry [revoke_token] writes for a token issued
    by this server carries as TTL the nominal lifetime of the token's
    type, [exp - iat]; this is at least the remaining lifetime
    [exp - now] and equals it only for a revocation at the very instant of
    issuance. *)
Theorem revoke_ttl_is_nominal (s : State) (now issued : Z) (tok : Token)
    (id : string) (identity : pyval) (f : bool) :
  tok = create_access_token JWT_SECRET_KEY issued id identity f
  \/ tok = create_refresh_token JWT_SECRET_KEY issued id identity ->
  (issued <= now)%Z ->
  let s' := revoke_token s now (jti (payload tok)) (type (payload tok)) in
  calls s' = (calls s ++ [RedisSet id "" (ttl (type (payload tok)))])%list
  /\ jwt_redis_blocklist s' !! id
     = Some ("", (now + ttl (type (payload tok)))%Z)
  /\ ttl (type (payload tok)) = (exp (payload tok) - iat (payload tok))%Z
  /\ (exp (payload tok) - now <= ttl (type (payload tok)))%Z
  /\ (ttl (type (payload tok)) = (exp (payload tok) - now)%Z <-> now = issued).
Proof.
  intros [-> | ->] Hle; simpl; unfold redis_set; rewrite lookup_insert_eq;
    unfold ttl; simpl;
    unfold JWT_ACCESS_TOKEN_EXPIRES, JWT_REFRESH_TOKEN_EXPIRES;
    repeat split; lia.
Qed.

End VerifierProperties.

(** ** The views *)

Section ViewProperties.
Context `{Bcrypt}.
Variable JWT_SECRET_KEY : string.
Variable url_for : string -> string.

(** What a successful verification tells about the request. *)
Lemma jwt_required_Verified (refresh fresh_required : bool) (s : State)
    (now : Z) (h : AuthHeader) (jwt : Claims) :
  jwt_required JWT_SECRET_KEY refresh fresh_required s now h = Verified jwt ->
  exists tok, h = Bearer tok /\ jwt = payload tok
    /\ signed_with tok = JWT_SECRET_KEY
    /\ (now < exp jwt)%Z
    /\ (refresh = true -> type jwt = "refresh")
    /\ (fresh_required = true -> fresh jwt = true)
    /\ redis_get (jwt_redis_blocklist s) now (jti jwt) = None.
Proof.
  unfold jwt_required, check_if_token_revoked.
  destruct h as [| |tok]; try discriminate.
  destruct (bool_decide (signed_with tok = JWT_SECRET_KEY)) eqn:Hsig;
    simpl; [|discriminate].
  destruct (now <? exp (payload tok))%Z eqn:Hexp; simpl; [|discriminate].
  destruct (refresh && negb (bool_decide (type (payload tok) = "refresh")))
    eqn:Hty; [discriminate|].
  destruct (fresh_required && negb (fresh (payload tok))) eqn:Hfr;
    [discriminate|].
  destruct (bool_decide
              (redis_get (jwt_redis_blocklist s) now (jti (payload tok))
               ≠ None)) eqn:Hrev; [discriminate|].
  intros [= <-]. exists tok.
  apply bool_decide_eq_true_1 in Hsig. apply Z.ltb_lt in Hexp.
  apply bool_decide_eq_false_1 in Hrev.
  repeat split; try done.
  - intros ->. simpl in Hty. apply negb_false_iff in Hty.
    by apply bool_decide_eq_true_1 in Hty.
  - intros ->. simpl in Hfr. by apply negb_false_iff in Hfr.
  - destruct (redis_get _ _ _); [|done]. by destruct Hrev.
Qed.

(** C9.  A logout with a token that verifies answers 200 and writes one
    entry, under the id of the presented token: the users table is
    untouched, the blocklist is the old one with that single key set, every
    other key reads as before, and every token with another id (such as
    the other member of the pair issued at the same login) verifies, at
    any instant and for any requirement, exactly as it did before. *)
Theorem logout_revokes_only_presented (env : Env) (s : State)
    (request : Request) (jwt : Claims) :
  jwt_required JWT_SECRET_KEY false false s (clock env)
    (authorization request) = Verified jwt ->
  exists s',
    logout JWT_SECRET_KEY env s request
    = Ok ((jsonify [("message", JStr "Successfully logged out")], 200), s')
    /\ (exists tok, authorization request = Bearer tok /\ jwt = payload tok)
    /\ users s' = users s
    /\ jwt_redis_blocklist s'
       = <[jti jwt := ("", (clock env + ttl (type jwt))%Z)]>
           (jwt_redis_blocklist s)
    /\ calls s' = (calls s ++ [RedisSet (jti jwt) "" (ttl (type jwt))])%list
    /\ (forall key, key ≠ jti jwt ->
          jwt_redis_blocklist s' !! key = jwt_redis_blocklist s !! key)
    /\ (forall tok t refresh fresh_required,
          jti (payload tok) ≠ jti jwt ->
          jwt_required JWT_SECRET_KEY refresh fresh_required s' t (Bearer tok)
          = jwt_required JWT_SECRET_KEY refresh fresh_required s t
              (Bearer tok)).
Proof.
  intros Hver. unfold logout. rewrite Hver.
  eexists. split; [reflexivity|].
  destruct (jwt_required_Verified _ _ _ _ _ _ Hver) as (tok & Hh & Hjwt & _).
  split; [by exists tok|].
  assert (Hother : forall key, key ≠ jti jwt ->
            jwt_redis_blocklist
              (revoke_token s (clock env) (jti jwt) (type jwt)) !! key
            = jwt_redis_blocklist s !! key).
  { intros key Hne. simpl. unfold redis_set. by rewrite lookup_insert_ne. }
  do 4 (split; [done|]).
  intros tok' t refresh fresh_required Hne.
  apply jwt_required_frame. by apply Hother.
Qed.

(** C5.  For a deletion request whose (fresh) token verifies: when the
    subject of the token differs from the target id the answer is 403 and
    the state is unchanged; when they match and the record exists, the
    answer is 200 and the writes issued are, in this order, the
    revocation of the presented token's id, the deletion of the record and
    the commit; when they match and there is no such record the answer is
    404 with the state unchanged. *)
Theorem delete_user_checks_subject (env : Env) (s : State)
    (request : Request) (user_id : string) (jwt : Claims) :
  jwt_required JWT_SECRET_KEY false true s (clock env)
    (authorization request) = Verified jwt ->
  (get_jwt_identity jwt ≠ PStr user_id ->
     delete_user JWT_SECRET_KEY env s request user_id
     = Ok ((jsonify [("error", JStr "Unauthorized to delete this user")],
            403), s))
  /\ (get_jwt_identity jwt = PStr user_id ->
      forall i user, DB_get s (PStr user_id) = Some (i, user) ->
      exists s',
        delete_user JWT_SECRET_KEY env s request user_id
        = Ok ((jsonify [("message",
                 JStr ("User " ++ user_id ++ " deleted successfully"))],
               200), s')
        /\ calls s'
           = (calls s ++ [RedisSet (jti jwt) "" (ttl (type jwt));
                          StorageDelete user; StorageSave])%list
        /\ jwt_redis_blocklist s' !! jti jwt
           = Some ("", (clock env + ttl (type jwt))%Z)
        /\ users s' = delete i (users s))
  /\ (get_jwt_identity jwt = PStr user_id ->
      DB_get s (PStr user_id) = None ->
      delete_user JWT_SECRET_KEY env s request user_id
      = Ok ((jsonify [("error", JStr "User not found")], 404), s)).
Proof.
  intros Hver. unfold delete_user. rewrite Hver. split; [|split].
  - intros Hne. by rewrite bool_decide_eq_true_2.
  - intros Heq i user Hget.
    rewrite bool_decide_eq_false_2 by (intros Hc; by apply Hc).
    rewrite Hget. eexists. split; [reflexivity|]. simpl.
    rewrite <- app_assoc. simpl. unfold redis_set.
    by rewrite lookup_insert_eq.
  - intros Heq Hget.
    rewrite bool_decide_eq_false_2 by (intros Hc; by apply Hc).
    by rewrite Hget.
Qed.

Lemma jwt_required_accepts (refresh fresh_required : bool) (s : State)
    (t : Z) (tok : Token) :
  signed_with tok = JWT_SECRET_KEY ->
  (t < exp (payload tok))%Z ->
  (refresh = true -> type (payload tok) = "refresh") ->
  (fresh_required = true -> fresh (payload tok) = true) ->
  redis_get (jwt_redis_blocklist s) t (jti (payload tok)) = None ->
  jwt_required JWT_SECRET_KEY refresh fresh_required s t (Bearer tok)
  = Verified (payload tok).
Proof.
  intros Hsig Hexp Hty Hfr Hget.
  unfold jwt_required, check_if_token_revoked. rewrite Hget.
  rewrite (bool_decide_eq_true_2 _ Hsig). simpl.
  rewrite (proj2 (Z.ltb_lt _ _) Hexp). simpl.
  destruct refresh; simpl.
  - rewrite bool_decide_eq_true_2 by auto. simpl.
    destruct fresh_required; simpl; [by rewrite Hfr|done].
  - destruct fresh_required; simpl; [by rewrite Hfr|done].
Qed.

(** A token issued without freshness, presented where a fresh token is
    required: expired or not, it is turned away. *)
Lemma jwt_required_stale (s : State) (t issued : Z) (id : string)
    (identity : pyval) :
  jwt_required JWT_SECRET_KEY false true s t
    (Bearer (create_access_token JWT_SECRET_KEY issued id identity false))
  = if (t <? issued + JWT_ACCESS_TOKEN_EXPIRES)%Z
    then Rejected InsufficientFreshness else Rejected ExpiredToken.
Proof.
  unfold jwt_required. simpl. rewrite bool_decide_eq_true_2 by done. simpl.
  by destruct (t <? issued + JWT_ACCESS_TOKEN_EXPIRES)%Z.
Qed.

Lemma jwt_error_response_status (e : VerificationError) :
  snd (jwt_error_response e) = 401.
Proof. by destruct e. Qed.

(** C3.  A refresh request whose refresh token verifies answers 200 with
    an access token that carries fresh = false.  That token passes plain
    verification right away when its id is not on the blocklist.
    Presented later to [change_password] or [delete_user], in any state
    and at any instant, it is always answered 401 with the state
    unchanged, and whenever it still passes plain verification the reason
    is InsufficientFreshness, while an ordinary protected view
    ([token_status]) answers 200. *)
Theorem refreshed_token_is_not_fresh (env : Env) (s : State)
    (request : Request) (jwt : Claims) :
  jwt_required JWT_SECRET_KEY true false s (clock env)
    (authorization request) = Verified jwt ->
  let access_token :=
    create_access_token JWT_SECRET_KEY (clock env) (uuid4 env)
      (get_jwt_identity jwt) false in
  refresh_token JWT_SECRET_KEY env s request
  = Ok ((jsonify [("access_token", JTok access_token)], 200), s)
  /\ fresh (payload access_token) = false
  /\ (redis_get (jwt_redis_blocklist s) (clock env) (uuid4 env) = None ->
      jwt_required JWT_SECRET_KEY false false s (clock env)
        (Bearer access_token) = Verified (payload access_token))
  /\ forall (env' : Env) (s' : State) (request' : Request) (user_id : string),
       authorization request' = Bearer access_token ->
       (exists e,
          change_password JWT_SECRET_KEY env' s' request'
          = Ok (jwt_error_response e, s')
          /\ delete_user JWT_SECRET_KEY env' s' request' user_id
             = Ok (jwt_error_response e, s')
          /\ snd (jwt_error_response e) = 401)
       /\ (jwt_required JWT_SECRET_KEY false false s' (clock env')
             (Bearer access_token) = Verified (payload access_token) ->
           change_password JWT_SECRET_KEY env' s' request'
           = Ok (jwt_error_response InsufficientFreshness, s')
           /\ delete_user JWT_SECRET_KEY env' s' request' user_id
              = Ok (jwt_error_response InsufficientFreshness, s')
           /\ exists body,
                token_status JWT_SECRET_KEY env' s' request'
                = Ok ((body, 200), s')
                /\ json_field body "fresh" = Some (JBool false)).
Proof.
  intros Hver access_token. split; [|split; [done|split]].
  - unfold refresh_token. by rewrite Hver.
  - intros Hfree. apply jwt_required_accepts; try done.
    simpl. unfold JWT_ACCESS_TOKEN_EXPIRES. lia.
  - intros env' s' request' uid Hauth. split.
    + unfold change_password, delete_user. rewrite Hauth.
      subst access_token. rewrite jwt_required_stale.
      destruct (clock env' <? clock env + JWT_ACCESS_TOKEN_EXPIRES)%Z;
        eexists; (split; [reflexivity|split; [reflexivity|]]);
        apply jwt_error_response_status.
    + intros Hplain.
      destruct (jwt_required_Verified _ _ _ _ _ _ Hplain)
        as (tok & Htok & _ & _ & Hexp & _).
      simpl in Hexp. apply Z.ltb_lt in Hexp.
      unfold change_password, delete_user, token_status. rewrite Hauth.
      subst access_token. rewrite jwt_required_stale, Hexp, Hplain.
      split; [done|split; [done|]]. eexists. split; reflexivity.
Qed.

(** C2.  A login with the email of a stored user and a password that
    [verify_password] accepts answers 200 with an access token carrying
    fresh = true and a refresh token carrying fresh = false, both for the
    user's id; the state is unchanged, and at that same instant the access
    token passes verification (plain and fresh-required) and the refresh
    token passes verification where a refresh token is required, the two
    new token ids not being on the blocklist. *)
Theorem login_issues_token_pair (env : Env) (s : State) (request : Request)
    (i : nat) (user : User) :
  truthy (dict_get (data request) "email") = true ->
  truthy (dict_get (data request) "password") = true ->
  DB_filter_by s "email" (dict_get (data request) "email") = Some (i, user) ->
  verify_password user (dict_get (data request) "password") = Ok true ->
  redis_get (jwt_redis_blocklist s) (clock env) (uuid4 env) = None ->
  redis_get (jwt_redis_blocklist s) (clock env) (uuid4' env) = None ->
  exists body access_token refresh_token,
    login JWT_SECRET_KEY env s request = Ok ((body, 200), s)
    /\ json_field body "access_token" = Some (JTok access_token)
    /\ json_field body "refresh_token" = Some (JTok refresh_token)
    /\ type (payload access_token) = "access"
    /\ fresh (payload access_token) = true
    /\ type (payload refresh_token) = "refresh"
    /\ fresh (payload refresh_token) = false
    /\ get_jwt_identity (payload access_token) = getattr user "id"
    /\ get_jwt_identity (payload refresh_token) = getattr user "id"
    /\ jwt_required JWT_SECRET_KEY false false s (clock env)
         (Bearer access_token) = Verified (payload access_token)
    /\ jwt_required JWT_SECRET_KEY false true s (clock env)
         (Bearer access_token) = Verified (payload access_token)
    /\ jwt_required JWT_SECRET_KEY true false s (clock env)
         (Bearer refresh_token) = Verified (payload refresh_token).
Proof.
  intros Hemail Hpw Hfind Hcheck Hfree Hfree'.
  unfold login.
  rewrite load_data_inr by (by eapply dict_get_nonempty).
  rewrite Hemail, Hpw, Hfind. simpl. rewrite Hcheck. simpl.
  eexists _, _, _. split; [reflexivity|].
  do 8 (split; [reflexivity|]).
  split; [|split]; apply jwt_required_accepts; try done; simpl;
    unfold JWT_ACCESS_TOKEN_EXPIRES, JWT_REFRESH_TOKEN_EXPIRES; lia.
Qed.


(** C7 (as amended).  When the stored hash of the user found at login is
    absent, or is one [bcrypt.checkpw] raises on, [verify_password] ends in
    that exception ([AttributeError] for an absent hash) instead of
    answering [False], and [login] does not catch it: the request ends in
    the same exception, with no answer and no token. *)
Theorem verify_password_raises (env : Env) (s : State) (request : Request)
    (i : nat) (user : User) (password : string) (e : exn) :
  truthy (dict_get (data request) "email") = true ->
  dict_get (data request) "password" = PStr password ->
  password ≠ "" ->
  DB_filter_by s "email" (dict_get (data request) "email") = Some (i, user) ->
  match getattr user "password_hash" with
  | PStr hashed => checkpw password hashed = Raise e
  | _ => e = AttributeError
  end ->
  verify_password user (PStr password) = Raise e
  /\ login JWT_SECRET_KEY env s request = Raise e.
Proof.
  intros Hemail Hpw Hne Hfind Hbad.
  assert (Hraise : verify_password user (PStr password) = Raise e).
  { unfold verify_password. simpl.
    destruct (getattr user "password_hash"); simpl; by subst. }
  split; [done|]. unfold login.
  rewrite load_data_inr by (by eapply dict_get_nonempty).
  rewrite Hemail, Hpw, Hfind.
  destruct password; [done|]. simpl. by rewrite Hraise.
Qed.

(** *** The reset flow *)

Lemma truthy_nonempty (v : string) : v ≠ "" -> truthy (PStr v) = true.
Proof. by destruct v. Qed.

Lemma dict_get_PStr_nonempty (d : gmap string pyval) (key v : string) :
  dict_get d key = PStr v -> d ≠ ∅.
Proof.
  unfold dict_get. intros Hget ->. rewrite lookup_empty in Hget. discriminate.
Qed.


Lemma length_ge_nonempty (v : string) : 6 <= utf8_length v -> v ≠ "".
Proof. destruct v; simpl; [lia|discriminate]. Qed.


Lemma filter_by_misses_updated (s : State) (field : string) (value : pyval)
    (i : nat) (obj obj' : User) :
  DB_filter_by s field value = None ->
  getattr obj' field ≠ value ->
  DB_filter_by (DB_update_save (DB_update_save s i obj) i obj') field value
  = None.
Proof.
  unfold DB_filter_by. simpl. intros Hnone Hobj.
  rewrite list_insert_insert_eq. apply list_find_None.
  apply list_find_None in Hnone. by apply Forall_insert.
Qed.

Lemma filter_by_lookup (s : State) (field : string) (value : pyval)
    (i : nat) (obj : User) :
  DB_filter_by s field value = Some (i, obj) ->
  users s !! i = Some obj /\ i < List.length (users s).
Proof.
  unfold DB_filter_by. intros (Hi & _ & _)%list_find_Some.
  split; [done|]. by eapply lookup_lt_Some.
Qed.


End ViewProperties.

(** * The properties on the sample data *)

(** ** C10 *)

Lemma password_assignment_witness :
  truthy PNone = false
  /\ @assign_all toy_bcrypt (User_init "id-1" 1000)
       [("username", PStr "alice", "s0"); ("email", PStr "a@x.com", "s1");
        ("password", PStr "secret1", "salt")] = Ok alice
  /\ @User_setattr toy_bcrypt "salt2" alice "password" PNone = Ok alice
  /\ alice !! "password" = None.
Proof.
  assert (Hfalsy : truthy PNone = false) by reflexivity.
  assert (Hrun : @assign_all toy_bcrypt (User_init "id-1" 1000)
            [("username", PStr "alice", "s0"); ("email", PStr "a@x.com", "s1");
             ("password", PStr "secret1", "salt")] = Ok alice)
    by (vm_compute; reflexivity).
  pose proof (@password_assignment toy_bcrypt "salt2" "id-1" 1000 alice alice
                PNone _ Hfalsy Hrun) as (H1 & _ & _ & H4 & _).
  exact (conj Hfalsy (conj Hrun (conj H1 H4))).
Defined.

(** ** C1 *)

(** C1, counterexample.  The access token issued at instant 0 expires at
    3600.  A logout at instant 100 stores its id for 3600 seconds, until
    3700.  At instant 3650 the entry is still there, and verification of
    the token fails with ExpiredToken, not RevokedToken. *)
Lemma revoked_token_reported_expired :
  exists s',
    logout sample_secret (sample_env 100) sample_state
      (sample_request [] (Bearer sample_access))
    = Ok ((jsonify [("message", JStr "Successfully logged out")], 200), s')
    /\ redis_get (jwt_redis_blocklist s') 3650 (jti (payload sample_access))
       = Some ""
    /\ jwt_required sample_secret false false s' 3650 (Bearer sample_access)
       = Rejected ExpiredToken
    /\ jwt_required sample_secret false false s' 3650 (Bearer sample_access)
       ≠ Rejected RevokedToken.
Proof.
  eexists. split; [reflexivity|].
  split; [vm_compute; reflexivity|].
  split; [vm_compute; reflexivity|].
  vm_compute. discriminate.
Qed.

Lemma revoked_token_rejected_witness :
  Forall (fun r : Z * string * string => r.1.2 ≠ jti (payload sample_access))
    [(150%Z, "j-r", "refresh")]
  /\ (200 < 100 + ttl (type (payload sample_access)))%Z
  /\ jwt_required sample_secret false false
       (revoke_all
          (revoke_token sample_state 100 (jti (payload sample_access))
             (type (payload sample_access)))
          [(150%Z, "j-r", "refresh")])
       200 (Bearer sample_access)
     = Rejected RevokedToken.
Proof.
  assert (Hlater : Forall (fun r : Z * string * string =>
                             r.1.2 ≠ jti (payload sample_access))
                     [(150%Z, "j-r", "refresh")])
    by (repeat constructor; discriminate).
  assert (Ht : (200 < 100 + ttl (type (payload sample_access)))%Z)
    by reflexivity.
  split; [exact Hlater|]. split; [exact Ht|].
  pose proof (revoked_token_rejected sample_secret sample_state 100 200
                sample_access _ false false Hlater Ht) as (_ & _ & Hrev & _).
  apply Hrev; [reflexivity|reflexivity|discriminate|discriminate].
Defined.

(** ** C4 *)

(** C4, counterexample.  The access token issued at instant 0 expires at
    3600; revoked by a logout at instant 100 its remaining lifetime is 3500
    seconds, and the entry is written with a TTL of 3600. *)
Lemma revocation_ttl_exceeds_remaining_lifetime :
  exists s',
    logout sample_secret (sample_env 100) sample_state
      (sample_request [] (Bearer sample_access))
    = Ok ((jsonify [("message", JStr "Successfully logged out")], 200), s')
    /\ calls s' = [RedisSet "j-a" "" 3600]
    /\ (exp (payload sample_access) - 100)%Z = 3500%Z
    /\ jwt_redis_blocklist s' !! "j-a" = Some ("", 3700%Z).
Proof.
  eexists. split; [reflexivity|].
  split; [reflexivity|]. split; [reflexivity|]. vm_compute. reflexivity.
Qed.

Lemma revoke_ttl_is_nominal_witness :
  (sample_access
   = create_access_token sample_secret 0 "j-a" (PStr "id-1") true
   \/ sample_access = create_refresh_token sample_secret 0 "j-a" (PStr "id-1"))
  /\ (0 <= 100)%Z
  /\ calls (revoke_token sample_state 100 (jti (payload sample_access))
              (type (payload sample_access)))
     = [RedisSet "j-a" "" (ttl "access")]
  /\ ttl "access" = 3600%Z
  /\ (exp (payload sample_access) - 100 <= ttl "access")%Z.
Proof.
  assert (Htok : sample_access
            = create_access_token sample_secret 0 "j-a" (PStr "id-1") true
            \/ sample_access
               = create_refresh_token sample_secret 0 "j-a" (PStr "id-1"))
    by (left; reflexivity).
  assert (Hle : (0 <= 100)%Z) by lia.
  pose proof (revoke_ttl_is_nominal sample_secret sample_state 100 0
                sample_access "j-a" (PStr "id-1") true Htok Hle)
    as (Hcalls & _ & _ & Hrem & _).
  split; [exact Htok|]. split; [exact Hle|].
  split; [exact Hcalls|]. split; [reflexivity|exact Hrem].
Defined.

(** ** C9 *)

Lemma logout_revokes_only_presented_witness :
  jwt_required sample_secret false false sample_state 100
    (Bearer sample_access) = Verified (payload sample_access)
  /\ exists s',
       logout sample_secret (sample_env 100) sample_state
         (sample_request [] (Bearer sample_access))
       = Ok ((jsonify [("message", JStr "Successfully logged out")], 200), s')
       /\ users s' = [alice]
       /\ jwt_required sample_secret true false s' 200 (Bearer sample_refresh)
          = Verified (payload sample_refresh).
Proof.
  assert (Hver : jwt_required sample_secret false false sample_state
                   (clock (sample_env 100))
                   (authorization (sample_request [] (Bearer sample_access)))
                 = Verified (payload sample_access))
    by (vm_compute; reflexivity).
  split; [exact Hver|].
  destruct (logout_revokes_only_presented sample_secret _ _ _ _ Hver)
    as (s' & Hout & _ & Husers & _ & _ & _ & Hframe).
  exists s'. split; [exact Hout|]. split; [exact Husers|].
  rewrite Hframe by discriminate. vm_compute. reflexivity.
Defined.

(** ** C5 *)

Lemma delete_user_checks_subject_witness :
  jwt_required sample_secret false true sample_state_bob 100
    (Bearer sample_access) = Verified (payload sample_access)
  /\ delete_user sample_secret (sample_env 100) sample_state_bob
       (sample_request [] (Bearer sample_access)) "id-2"
     = Ok ((jsonify [("error", JStr "Unauthorized to delete this user")], 403),
           sample_state_bob)
  /\ exists s',
       delete_user sample_secret (sample_env 100) sample_state_bob
         (sample_request [] (Bearer sample_access)) "id-1"
       = Ok ((jsonify [("message", JStr "User id-1 deleted successfully")],
              200), s')
       /\ calls s' = [RedisSet "j-a" "" 3600; StorageDelete alice; StorageSave]
       /\ users s' = [bob].
Proof.
  assert (Hver : jwt_required sample_secret false true sample_state_bob
                   (clock (sample_env 100))
                   (authorization (sample_request [] (Bearer sample_access)))
                 = Verified (payload sample_access))
    by (vm_compute; reflexivity).
  split; [exact Hver|].
  pose proof (delete_user_checks_subject sample_secret (sample_env 100)
                sample_state_bob (sample_request [] (Bearer sample_access)))
    as Hthm.
  split.
  - destruct (Hthm "id-2" _ Hver) as (Hforbidden & _).
    apply Hforbidden. discriminate.
  - destruct (Hthm "id-1" _ Hver) as (_ & Hdel & _).
    destruct (Hdel eq_refl 0 alice) as (s' & Hout & Hcalls & _ & Husers);
      [vm_compute; reflexivity|].
    exists s'. split; [exact Hout|]. split; [exact Hcalls|exact Husers].
Defined.

(** ** C3 *)

Lemma refreshed_token_is_not_fresh_witness :
  jwt_required sample_secret true false sample_state 50
    (Bearer sample_refresh) = Verified (payload sample_refresh)
  /\ refresh_token sample_secret (sample_env 50) sample_state
       (sample_request [] (Bearer sample_refresh))
     = Ok ((jsonify [("access_token", JTok sample_stale)], 200), sample_state)
  /\ fresh (payload sample_stale) = false
  /\ @change_password toy_bcrypt sample_secret (sample_env 60) sample_state
       (sample_request [("current_password", "secret1");
                        ("new_password", "secret2");
                        ("confirm_password", "secret2")]
          (Bearer sample_stale))
     = Ok ((jsonify [("msg", JStr "Fresh token required")], 401), sample_state)
  /\ delete_user sample_secret (sample_env 60) sample_state
       (sample_request [] (Bearer sample_stale)) "id-1"
     = Ok ((jsonify [("msg", JStr "Fresh token required")], 401), sample_state).
Proof.
  assert (Hver : jwt_required sample_secret true false sample_state
                   (clock (sample_env 50))
                   (authorization (sample_request [] (Bearer sample_refresh)))
                 = Verified (payload sample_refresh))
    by (vm_compute; reflexivity).
  split; [exact Hver|].
  destruct (@refreshed_token_is_not_fresh toy_bcrypt sample_secret _ _ _ _ Hver)
    as (Hout & Hfresh & _ & Hlater).
  split; [exact Hout|]. split; [exact Hfresh|].
  split.
  - destruct (Hlater (sample_env 60) sample_state
                (sample_request [("current_password", "secret1");
                                 ("new_password", "secret2");
                                 ("confirm_password", "secret2")]
                   (Bearer sample_stale)) "id-1" eq_refl) as (_ & Hplain).
    destruct Hplain as (Hcp & _); [vm_compute; reflexivity|exact Hcp].
  - destruct (Hlater (sample_env 60) sample_state
                (sample_request [] (Bearer sample_stale)) "id-1" eq_refl)
      as (_ & Hplain).
    destruct Hplain as (_ & Hdel & _); [vm_compute; reflexivity|exact Hdel].
Defined.

(** ** C2 *)

Lemma login_issues_token_pair_witness :
  let request := sample_request [("email", "a@x.com"); ("password", "secret1")]
                   NoHeader in
  truthy (dict_get (data request) "email") = true
  /\ truthy (dict_get (data request) "password") = true
  /\ DB_filter_by sample_state "email" (dict_get (data request) "email")
     = Some (0, alice)
  /\ @verify_password toy_bcrypt alice (dict_get (data request) "password")
     = Ok true
  /\ redis_get (jwt_redis_blocklist sample_state) 0 "j-a" = None
  /\ redis_get (jwt_redis_blocklist sample_state) 0 "j-r" = None
  /\ exists body access_token refresh_token,
       @login toy_bcrypt sample_secret (sample_env 0) sample_state request
       = Ok ((body, 200), sample_state)
       /\ json_field body "access_token" = Some (JTok access_token)
       /\ json_field body "refresh_token" = Some (JTok refresh_token)
       /\ fresh (payload access_token) = true
       /\ fresh (payload refresh_token) = false
       /\ jwt_required sample_secret false true sample_state 0
            (Bearer access_token) = Verified (payload access_token)
       /\ jwt_required sample_secret true false sample_state 0
            (Bearer refresh_token) = Verified (payload refresh_token).
Proof.
  intros request.
  assert (H1 : truthy (dict_get (data request) "email") = true)
    by (vm_compute; reflexivity).
  assert (H2 : truthy (dict_get (data request) "password") = true)
    by (vm_compute; reflexivity).
  assert (H3 : DB_filter_by sample_state "email"
                 (dict_get (data request) "email") = Some (0, alice))
    by (vm_compute; reflexivity).
  assert (H4 : @verify_password toy_bcrypt alice
                 (dict_get (data request) "password") = Ok true)
    by (vm_compute; reflexivity).
  assert (H5 : redis_get (jwt_redis_blocklist sample_state)
                 (clock (sample_env 0)) (uuid4 (sample_env 0)) = None)
    by (vm_compute; reflexivity).
  assert (H6 : redis_get (jwt_redis_blocklist sample_state)
                 (clock (sample_env 0)) (uuid4' (sample_env 0)) = None)
    by (vm_compute; reflexivity).
  do 6 (split; [assumption|]).
  destruct (@login_issues_token_pair toy_bcrypt sample_secret (sample_env 0)
              sample_state request 0 alice H1 H2 H3 H4 H5 H6)
    as (body & a & r & Hout & Ha & Hr & _ & Hfa & _ & Hfr & _ & _ & _ & Hva
        & Hvr).
  exists body, a, r. repeat (split; [assumption|]). assumption.
Defined.

(** ** C8 *)



(** ** C7 *)

(** C7, counterexample.  bob's record holds no password hash.  Verifying
    any password against it raises [AttributeError] rather than answering
    [False], and a login with bob's email ends in that exception. *)
Lemma verify_password_absent_hash_raises :
  getattr bob "password_hash" = PNone
  /\ @verify_password toy_bcrypt bob (PStr "secret1") = Raise AttributeError
  /\ @verify_password toy_bcrypt bob (PStr "secret1") ≠ Ok false
  /\ @login toy_bcrypt sample_secret (sample_env 10) sample_state_bob
       (sample_request [("email", "b@x.com"); ("password", "secret1")] NoHeader)
     = Raise AttributeError.
Proof.
  split; [reflexivity|]. split; [reflexivity|].
  split; [discriminate|]. vm_compute. reflexivity.
Qed.

Lemma verify_password_raises_witness :
  let request := sample_request [("email", "b@x.com"); ("password", "secret1")]
                   NoHeader in
  truthy (dict_get (data request) "email") = true
  /\ dict_get (data request) "password" = PStr "secret1"
  /\ DB_filter_by sample_state_bob "email" (dict_get (data request) "email")
     = Some (1, bob)
  /\ @verify_password toy_bcrypt bob (PStr "secret1") = Raise AttributeError
  /\ @login toy_bcrypt sample_secret (sample_env 10) sample_state_bob request
     = Raise AttributeError.
Proof.
  intros request.
  assert (H1 : truthy (dict_get (data request) "email") = true)
    by (vm_compute; reflexivity).
  assert (H2 : dict_get (data request) "password" = PStr "secret1")
    by (vm_compute; reflexivity).
  assert (H3 : DB_filter_by sample_state_bob "email"
                 (dict_get (data request) "email") = Some (1, bob))
    by (vm_compute; reflexivity).
  do 3 (split; [assumption|]).
  apply (@verify_password_raises toy_bcrypt sample_secret (sample_env 10)
           sample_state_bob request 1 bob "secret1" AttributeError H1 H2);
    [discriminate|exact H3|reflexivity].
Defined.

(** ** C6 *)


(** * Further properties of the views *)

Ltac unfold_views :=
  unfold handle, register, login, refresh_token, logout, get_profile,
    update_profile, change_password, delete_user, request_password_reset,
    reset_password_with_token, verify_token, token_status, bind in *.

Ltac split_views := repeat case_match; simplify_eq/=.

Section RouteProperties.
Context `{Bcrypt}.
Variable JWT_SECRET_KEY : string.
Variable url_for : string -> string.

(** X1.  A request answered with a status other than 200 and 201 leaves the
    state as it was: users table, blocklist and issued writes. *)
Theorem failed_request_keeps_state (ep : endpoint) (env : Env) (s s' : State)
    (request : Request) (resp : Response) :
  handle JWT_SECRET_KEY url_for ep env s request = Ok (resp, s') ->
  resp.2 ≠ 200 -> resp.2 ≠ 201 ->
  s' = s.
Proof.
  intros Hrun H200 H201. destruct ep; unfold_views; split_views; done.
Qed.

(** X2.  Login, token refresh, profile read, token verification and token
    status never change the state, whatever they answer: issuing a token
    leaves no trace on the server and a refresh does not consume the refresh
    token. *)
Theorem token_routes_are_read_only (ep : endpoint) (env : Env) (s s' : State)
    (request : Request) (resp : Response) :
  In ep [POST_auth_login; POST_auth_token_refresh; GET_users_me;
         GET_auth_verify_token; GET_auth_token_status] ->
  handle JWT_SECRET_KEY url_for ep env s request = Ok (resp, s') ->
  s' = s.
Proof.
  intros Hep Hrun. simpl in Hep.
  destruct Hep as [<-|[<-|[<-|[<-|[<-|[]]]]]];
    unfold_views; split_views; done.
Qed.

(** What a request can do to the blocklist: nothing, or one [SET] under the
    id of the token it was verified with. *)
Lemma handle_blocklist (ep : endpoint) (env : Env) (s s' : State)
    (request : Request) (resp : Response) :
  handle JWT_SECRET_KEY url_for ep env s request = Ok (resp, s') ->
  jwt_redis_blocklist s' = jwt_redis_blocklist s
  \/ (exists jwt fresh_required,
        (ep = POST_auth_logout \/ exists user_id, ep = DELETE_users user_id)
        /\ jwt_required JWT_SECRET_KEY false fresh_required s (clock env)
             (authorization request) = Verified jwt
        /\ jwt_redis_blocklist s'
           = redis_set (jwt_redis_blocklist s) (clock env) (jti jwt) ""
               (ttl (type jwt))).
Proof.
  intros Hrun. destruct ep; unfold_views; split_views; eauto 10.
Qed.

(** X3.  Only logout and account deletion write to the blocklist.  After
    any other request, a password change or reset included, the blocklist is
    the same and every token verifies, at any instant and under any
    requirement, exactly as before: changing a password revokes nothing. *)
Theorem only_revocation_writes_blocklist (ep : endpoint) (env : Env)
    (s s' : State) (request : Request) (resp : Response) :
  ep ≠ POST_auth_logout ->
  (forall user_id, ep ≠ DELETE_users user_id) ->
  handle JWT_SECRET_KEY url_for ep env s request = Ok (resp, s') ->
  jwt_redis_blocklist s' = jwt_redis_blocklist s
  /\ forall tok t refresh fresh_required,
       jwt_required JWT_SECRET_KEY refresh fresh_required s' t (Bearer tok)
       = jwt_required JWT_SECRET_KEY refresh fresh_required s t (Bearer tok).
Proof.
  intros Hlogout Hdelete Hrun.
  assert (Hbl : jwt_redis_blocklist s' = jwt_redis_blocklist s).
  { destruct (handle_blocklist _ _ _ _ _ _ Hrun)
      as [Heq|(jwt & f & [->|[uid ->]] & _)]; [done|done|].
    by destruct (Hdelete uid). }
  split; [done|]. intros tok t refresh fresh_required.
  apply jwt_required_frame. by rewrite Hbl.
Qed.

(** An entry that is live at the instant of a request is not touched by
    it. *)
Lemma state_after_keeps_live_entry (ep : endpoint) (env : Env) (s : State)
    (request : Request) (key value : string) :
  redis_get (jwt_redis_blocklist s) (clock env) key = Some value ->
  jwt_redis_blocklist (state_after JWT_SECRET_KEY url_for ep env s request)
    !! key
  = jwt_redis_blocklist s !! key.
Proof.
  intros Hlive. unfold state_after.
  destruct (handle JWT_SECRET_KEY url_for ep env s request)
    as [[resp s']|e] eqn:Hrun; [|done].
  destruct (handle_blocklist _ _ _ _ _ _ Hrun)
    as [->|(jwt & f & _ & Hver & ->)]; [done|].
  destruct (jwt_required_Verified _ _ _ _ _ _ _ Hver)
    as (tok & _ & _ & _ & _ & _ & _ & Hfree).
  unfold redis_set. rewrite lookup_insert_ne; [done|].
  intros <-. congruence.
Qed.

Lemma serve_keeps_entry (l : list (endpoint * Env * Request)) (s : State)
    (key value : string) (expire_at : Z) :
  jwt_redis_blocklist s !! key = Some (value, expire_at) ->
  Forall (fun r => (clock r.1.2 < expire_at)%Z) l ->
  jwt_redis_blocklist (serve JWT_SECRET_KEY url_for s l) !! key
  = Some (value, expire_at).
Proof.
  revert s. induction l as [|[[ep env] request] l IH]; intros s Hkey Hall;
    simpl; [done|].
  inversion Hall as [|? ? Hhd Htl]; subst. simpl in Hhd.
  apply IH; [|done].
  rewrite (state_after_keeps_live_entry _ _ _ _ key value); [done|].
  unfold redis_get. rewrite Hkey. by rewrite (proj2 (Z.leb_le _ _)) by lia.
Qed.

(** A protected route turns a request away with the answer of the failed
    verification, changing nothing. *)
Lemma handle_rejected (ep : endpoint) (env : Env) (s : State)
    (request : Request) (refresh fresh_required : bool)
    (e : VerificationError) :
  protection ep = Some (refresh, fresh_required) ->
  jwt_required JWT_SECRET_KEY refresh fresh_required s (clock env)
    (authorization request) = Rejected e ->
  handle JWT_SECRET_KEY url_for ep env s request
  = Ok (jwt_error_response e, s).
Proof.
  intros Hprot Hrej.
  destruct ep; simpl in Hprot; simplify_eq; unfold_views; by rewrite Hrej.
Qed.

(** X4.  After a logout at instant [clock env] with a token that verifies,
    and after any sequence of further requests of any kind served before
    the blocklist entry expires, every protected route still turns that
    token away with a 401 until the entry expires, and changes nothing. *)
Theorem logged_out_token_stays_refused (env env' : Env) (s : State)
    (request request' : Request) (tok : Token)
    (traffic : list (endpoint * Env * Request)) (ep : endpoint) :
  authorization request = Bearer tok ->
  jwt_required JWT_SECRET_KEY false false s (clock env) (Bearer tok)
  = Verified (payload tok) ->
  Forall (fun r => (clock r.1.2 < clock env + ttl (type (payload tok)))%Z)
    traffic ->
  (clock env' < clock env + ttl (type (payload tok)))%Z ->
  authorization request' = Bearer tok ->
  protection ep ≠ None ->
  let s1 := state_after JWT_SECRET_KEY url_for POST_auth_logout env s request in
  let s2 := serve JWT_SECRET_KEY url_for s1 traffic in
  exists e,
    handle JWT_SECRET_KEY url_for ep env' s2 request'
    = Ok (jwt_error_response e, s2)
    /\ (jwt_error_response e).2 = 401.
Proof.
  intros Hauth Hver Htraffic Ht Hauth' Hprot s1 s2.
  assert (Hentry : jwt_redis_blocklist s2 !! jti (payload tok)
                   = Some ("", (clock env + ttl (type (payload tok)))%Z)).
  { apply serve_keeps_entry; [|done].
    unfold s1, state_after, handle, logout. rewrite Hauth, Hver. simpl.
    unfold redis_set. by rewrite lookup_insert_eq. }
  assert (Hlive : redis_get (jwt_redis_blocklist s2) (clock env')
                    (jti (payload tok)) = Some "").
  { unfold redis_get. rewrite Hentry.
    by rewrite (proj2 (Z.leb_le _ _)) by lia. }
  destruct (protection ep) as [[refresh fresh_required]|] eqn:Hep; [|done].
  destruct (jwt_required_listed JWT_SECRET_KEY refresh fresh_required _ _ _ _
              Hlive) as ([e He] & _).
  exists e. split; [|apply jwt_error_response_status].
  eapply handle_rejected; [done|]. by rewrite Hauth'.
Qed.

(** X5.  The field [is_blacklisted] of a 200 answer of the token-status
    route is always false: the route is reached only by a token that the
    blocklist lookup has just let through. *)
Theorem token_status_never_reports_blacklisted (env : Env) (s s' : State)
    (request : Request) (body : json) :
  token_status JWT_SECRET_KEY env s request = Ok ((body, 200), s') ->
  json_field body "is_blacklisted" = Some (JBool false).
Proof.
  unfold token_status. intros Hrun.
  destruct (jwt_required JWT_SECRET_KEY false false s (clock env)
              (authorization request)) as [jwt|e] eqn:Hver.
  - destruct (jwt_required_Verified _ _ _ _ _ _ _ Hver)
      as (tok & _ & _ & _ & _ & _ & _ & Hfree).
    injection Hrun as <- <-. simpl. rewrite Hfree.
    by rewrite bool_decide_eq_false_2 by (intros Hc; by apply Hc).
  - injection Hrun as Hresp _. by destruct e.
Qed.

End RouteProperties.

(** ** Registration and the users table *)

Lemma truthy_PStr_nonempty (v : string) : truthy (PStr v) = true -> v ≠ "".
Proof. by destruct v. Qed.

Lemma len_Ok (v : pyval) (n : nat) :
  len v = Ok n -> exists s, v = PStr s /\ n = utf8_length s.
Proof. destruct v; simpl; intros Hn; simplify_eq. by eexists. Qed.

Lemma load_data_data (request : Request) (d : gmap string pyval) :
  load_data request = inr d -> d = data request.
Proof. unfold load_data. repeat case_match; congruence. Qed.

Lemma load_data_inl_status (request : Request) (resp : Response) :
  load_data request = inl resp -> resp.2 = 400.
Proof. unfold load_data. repeat case_match; intros; by simplify_eq. Qed.

Lemma filter_by_None (s : State) (field : string) (value : pyval) :
  bool_decide (DB_filter_by s field value ≠ None) = false ->
  DB_filter_by s field value = None.
Proof.
  intros Hd. apply bool_decide_eq_false_1 in Hd.
  destruct (DB_filter_by s field value); [|done]. by destruct Hd.
Qed.

Lemma filter_by_appended (s : State) (field : string) (value : pyval)
    (obj : User) (st : State) :
  DB_filter_by s field value = None ->
  users st = (users s ++ [obj])%list ->
  getattr obj field = value ->
  DB_filter_by st field value = Some (List.length (users s), obj).
Proof.
  unfold DB_filter_by. intros Hnone -> Hobj.
  rewrite list_find_app_r by done. simpl.
  by rewrite decide_True.
Qed.

Lemma filter_by_updated_row (s : State) (field : string) (value : pyval)
    (i : nat) (obj obj' : User) :
  DB_filter_by s field value = Some (i, obj) ->
  getattr obj' field = value ->
  DB_filter_by (DB_update_save s i obj') field value = Some (i, obj').
Proof.
  unfold DB_filter_by. simpl. intros (Hi & _ & Hbefore)%list_find_Some Hobj.
  apply list_find_Some. split.
  - apply list_lookup_insert_eq. by eapply lookup_lt_Some.
  - split; [done|]. intros j y Hj Hlt.
    rewrite list_lookup_insert_ne in Hj by lia. by eapply Hbefore.
Qed.

Section RegistrationProperties.
Context `{Bcrypt}.
Variable JWT_SECRET_KEY : string.

(** A successful assignment of a truthy value to [password]: the value is
    a non-empty string and bcrypt hashed it. *)
Lemma User_setattr_password_Ok (salt : string) (self self' : User)
    (value : pyval) :
  User_setattr salt self "password" value = Ok self' ->
  truthy value = true ->
  exists pw hashed,
    value = PStr pw /\ pw ≠ "" /\ hashpw pw salt = Ok hashed
    /\ self' = object_setattr self "password_hash" (PStr hashed).
Proof.
  unfold User_setattr. simpl. intros Hset Htruthy. rewrite Htruthy in Hset.
  destruct value as [|pw|n|t]; simpl in Hset; simplify_eq.
  destruct (hashpw pw salt) as [hashed|e] eqn:Hhash; simpl in Hset;
    simplify_eq.
  exists pw, hashed. split_and!; try done. by apply truthy_PStr_nonempty.
Qed.

(** What the registration route did when it answered 201. *)
Lemma register_201 (env : Env) (s s' : State) (request : Request)
    (body : json) :
  register env s request = Ok ((body, 201), s') ->
  exists username password hashed,
    dict_get (data request) "username" = PStr username
    /\ (3 <=? utf8_length username)%nat = true
    /\ (utf8_length username <=? 30)%nat = true
    /\ truthy (dict_get (data request) "email") = true
    /\ dict_get (data request) "password" = PStr password
    /\ password ≠ ""
    /\ hashpw password (gensalt env) = Ok hashed
    /\ bool_decide (DB_filter_by s "email"
                      (dict_get (data request) "email") ≠ None) = false
    /\ bool_decide (DB_filter_by s "username" (PStr username) ≠ None) = false
    /\ s' = DB_new_save s
              (<["password_hash" := PStr hashed]>
                 (<["email" := dict_get (data request) "email"]>
                    (<["username" := PStr username]>
                       (User_init (uuid4 env) (clock env)))))
    /\ body = jsonify [("message", JStr "User registered successfully");
                       ("userId", JStr (uuid4 env))].
Proof.
  unfold register, DB_exists. intros Hrun.
  destruct (load_data request) as [resp|d] eqn:Hload.
  { apply load_data_inl_status in Hload. by simplify_eq/=. }
  apply load_data_data in Hload as ->.
  destruct (forallb truthy _) eqn:Hall; simpl in Hrun; [|simplify_eq].
  simpl in Hall. rewrite !andb_true_iff in Hall.
  destruct Hall as (Hu & He & Hp & _).
  destruct (len (dict_get (data request) "username")) as [n|e] eqn:Hlen;
    simpl in Hrun; [|simplify_eq].
  apply len_Ok in Hlen as (username & Hu' & ->).
  rewrite Hu' in Hrun.
  destruct (utf8_length username <? 3)%nat eqn:Hlo; simpl in Hrun;
    [simplify_eq|].
  destruct (30 <? utf8_length username)%nat eqn:Hhi; simpl in Hrun;
    [simplify_eq|].
  destruct (bool_decide (DB_filter_by s "email" _ ≠ None)) eqn:Hemail;
    [simplify_eq|].
  destruct (bool_decide (DB_filter_by s "username" _ ≠ None)) eqn:Huser;
    [simplify_eq|].
  destruct (User_setattr (gensalt env) _ "password" _) as [user|e] eqn:Hset;
    simpl in Hrun; [|simplify_eq].
  destruct (User_setattr_password_Ok _ _ _ _ Hset Hp)
    as (password & hashed & Hp' & Hpne & Hhash & ->).
  injection Hrun as <- <-.
  exists username, password, hashed.
  apply Nat.ltb_ge in Hlo, Hhi.
  split_and!; try done; by apply Nat.leb_le.
Qed.

(** X6.  What a 201 of the registration route guarantees: the username
    was a string of 3 to 30 characters, the email a truthy value, the
    password a non-empty string that bcrypt hashed, no record held the
    email or the username, and the state differs by exactly one appended
    record, a new [User()] carrying the username, the email and the hash of
    the password, without any [password] attribute. *)
Theorem register_created (env : Env) (s s' : State) (request : Request)
    (body : json) :
  register env s request = Ok ((body, 201), s') ->
  exists username password hashed,
    dict_get (data request) "username" = PStr username
    /\ len (PStr username) = Ok (utf8_length username)
    /\ 3 <= utf8_length username <= 30
    /\ truthy (dict_get (data request) "email") = true
    /\ dict_get (data request) "password" = PStr password
    /\ password ≠ ""
    /\ hashpw password (gensalt env) = Ok hashed
    /\ DB_filter_by s "email" (dict_get (data request) "email") = None
    /\ DB_filter_by s "username" (PStr username) = None
    /\ let user :=
         <["password_hash" := PStr hashed]>
           (<["email" := dict_get (data request) "email"]>
              (<["username" := PStr username]>
                 (User_init (uuid4 env) (clock env)))) in
       s' = DB_new_save s user
       /\ user !! "password" = None
       /\ getattr user "password_hash" = PStr hashed
       /\ users s' = (users s ++ [user])%list
       /\ jwt_redis_blocklist s' = jwt_redis_blocklist s
       /\ body = jsonify [("message", JStr "User registered successfully");
                          ("userId", JStr (uuid4 env))].
Proof.
  intros Hrun.
  destruct (register_201 _ _ _ _ _ Hrun)
    as (username & password & hashed & Hu & Hlo & Hhi & He & Hp & Hne & Hhash
        & Hemail & Huser & -> & ->).
  exists username, password, hashed.
  apply Nat.leb_le in Hlo, Hhi. apply filter_by_None in Hemail, Huser.
  split_and!; done.
Qed.

End RegistrationProperties.

Lemma DB_get_lookup (s : State) (id : pyval) (i : nat) (obj : User) :
  DB_get s id = Some (i, obj) ->
  users s !! i = Some obj /\ getattr obj "id" = id.
Proof.
  unfold DB_get. destruct id; [done|..];
    intros (Hi & Hid & _)%list_find_Some; done.
Qed.

Section TableProperties.
Context `{Bcrypt}.
Variable JWT_SECRET_KEY : string.
Variable url_for : string -> string.

Lemma User_setattr_getattr_other (salt : string) (self self' : User)
    (name : string) (value : pyval) (field : string) :
  User_setattr salt self name value = Ok self' ->
  field ≠ name -> field ≠ "password_hash" ->
  getattr self' field = getattr self field.
Proof.
  unfold User_setattr, getattr, object_setattr, bind.
  intros Hset Hname Hhash. repeat case_match; simplify_eq;
    by rewrite ?lookup_insert_ne.
Qed.

Lemma User_setattr_getattr (salt : string) (self self' : User)
    (name : string) (value : pyval) :
  User_setattr salt self name value = Ok self' ->
  name ≠ "password" ->
  getattr self' name = value.
Proof.
  unfold User_setattr, getattr, object_setattr. intros Hset Hname.
  rewrite decide_False in Hset by done. simplify_eq.
  by rewrite lookup_insert_eq.
Qed.

Ltac keep_column field :=
  repeat match goal with
  | Hset : User_setattr _ _ ?name _ = Ok ?u |- context [getattr ?u field] =>
      rewrite (User_setattr_getattr_other _ _ _ _ _ field Hset) by done
  end.

Ltac updated_row :=
  right; right; left;
  match goal with
  | Hget : DB_get _ _ = Some (?n, ?u) |- _ =>
      apply DB_get_lookup in Hget as [? _]; exists n, u
  | Hget : DB_filter_by _ _ _ = Some (?n, ?u) |- _ =>
      apply filter_by_lookup in Hget as [? _]; exists n, u
  end;
  eexists; split; [eassumption|]; split; [reflexivity|].

(** What a request can do to the users table. *)
Lemma handle_users (ep : endpoint) (env : Env) (s s' : State)
    (request : Request) (resp : Response) :
  handle JWT_SECRET_KEY url_for ep env s request = Ok (resp, s') ->
  users s' = users s
  \/ (exists user,
        users s' = (users s ++ [user])%list
        /\ DB_filter_by s "email" (getattr user "email") = None
        /\ DB_filter_by s "username" (getattr user "username") = None)
  \/ (exists i user user',
        users s !! i = Some user
        /\ users s' = <[i := user']> (users s)
        /\ getattr user' "id" = getattr user "id"
        /\ getattr user' "email" = getattr user "email"
        /\ (getattr user' "username" = getattr user "username"
            \/ DB_filter_by s "username" (getattr user' "username") = None))
  \/ (exists i, users s' = delete i (users s)).
Proof.
  intros Hrun. destruct ep; unfold_views; unfold DB_exists in *;
    split_views; try (by left).
  - (* register *)
    right; left. eexists. split; [reflexivity|].
    match goal with
    | Hu : User_setattr _ _ "username" _ = Ok _,
      He : User_setattr _ _ "email" _ = Ok _ |- _ =>
        pose proof (User_setattr_getattr _ _ _ _ _ Hu ltac:(done)) as Hu';
        pose proof (User_setattr_getattr _ _ _ _ _ He ltac:(done)) as He'
    end.
    split.
    + keep_column "email". rewrite He'. by apply filter_by_None.
    + keep_column "username". rewrite Hu'. by apply filter_by_None.
  - (* update_profile *)
    updated_row.
    match goal with
    | Hu : User_setattr _ _ "username" _ = Ok _ |- _ =>
        pose proof (User_setattr_getattr _ _ _ _ _ Hu ltac:(done)) as Hu'
    end.
    split; [by keep_column "id"|]. split; [by keep_column "email"|].
    right. rewrite Hu'. by apply filter_by_None.
  - (* change_password *)
    updated_row.
    split; [by keep_column "id"|]. split; [by keep_column "email"|].
    left. by keep_column "username".
  - (* delete_user *)
    right; right; right. by eexists.
  - (* request_password_reset *)
    updated_row.
    split; [by keep_column "id"|]. split; [by keep_column "email"|].
    left. by keep_column "username".
  - (* reset_password_with_token *)
    updated_row.
    split; [by keep_column "id"|]. split; [by keep_column "email"|].
    left. by keep_column "username".
Qed.

End TableProperties.

(** ** Columns that stay unique, records that stay apart *)

Lemma NoDup_insert_fresh {A : Type} (l : list A) (i : nat) (x : A) :
  NoDup l -> x ∉ l -> NoDup (<[i := x]> l).
Proof.
  revert i. induction l as [|a l IH]; intros i Hnd Hx; [done|].
  apply NoDup_cons in Hnd as [Ha Hnd]. apply not_elem_of_cons in Hx as [Hxa Hx].
  destruct i as [|i]; simpl; apply NoDup_cons.
  - done.
  - split; [|by apply IH].
    intros Hin. apply list_elem_of_lookup_1 in Hin as [j Hj].
    destruct (decide (i = j)) as [->|Hij].
    + destruct (decide (j < List.length l)) as [Hlt|Hge].
      * rewrite list_lookup_insert_eq in Hj by done. congruence.
      * rewrite list_insert_ge in Hj by lia.
        apply Ha. by eapply list_elem_of_lookup_2.
    + rewrite list_lookup_insert_ne in Hj by done.
      apply Ha. by eapply list_elem_of_lookup_2.
Qed.

Lemma NoDup_fmap_delete_fresh {A B : Type} (f : A -> B) (l : list A) (i : nat)
    (x : A) :
  NoDup (f <$> l) -> l !! i = Some x -> f x ∉ f <$> delete i l.
Proof.
  intros Hnd Hi. rewrite delete_take_drop, fmap_app.
  rewrite <- (take_drop_middle l i x Hi), fmap_app, fmap_cons in Hnd.
  apply NoDup_app in Hnd as (_ & Hsep & Hrest).
  apply NoDup_cons in Hrest as [Hx _].
  intros [Hin|Hin]%elem_of_app; [|done].
  apply (Hsep _ Hin). by left.
Qed.

Lemma filter_by_None_not_in (s : State) (field : string) (value : pyval) :
  DB_filter_by s field value = None ->
  value ∉ (fun u => getattr u field) <$> users s.
Proof.
  unfold DB_filter_by. intros Hnone%list_find_None.
  intros (u & -> & Hu)%list_elem_of_fmap.
  rewrite Forall_forall in Hnone. by apply (Hnone u).
Qed.

Lemma not_in_filter_by_None (l : list User) (field : string) (value : pyval) :
  value ∉ (fun u => getattr u field) <$> l ->
  list_find (fun u => getattr u field = value) l = None.
Proof.
  intros Hnot. apply list_find_None, Forall_forall. intros u Hu Heq.
  apply Hnot. apply list_elem_of_fmap. by exists u.
Qed.

Section TableInvariants.
Context `{Bcrypt}.
Variable JWT_SECRET_KEY : string.
Variable url_for : string -> string.

Lemma state_after_unique (ep : endpoint) (env : Env) (s : State)
    (request : Request) :
  NoDup ((fun u => getattr u "email") <$> users s) ->
  NoDup ((fun u => getattr u "username") <$> users s) ->
  let s' := state_after JWT_SECRET_KEY url_for ep env s request in
  NoDup ((fun u => getattr u "email") <$> users s')
  /\ NoDup ((fun u => getattr u "username") <$> users s').
Proof.
  intros Hemail Huser. unfold state_after. simpl.
  destruct (handle JWT_SECRET_KEY url_for ep env s request)
    as [[resp s']|e] eqn:Hrun; [|done].
  destruct (handle_users _ _ _ _ _ _ _ _ Hrun)
    as [->|[(u & -> & He & Hu)|[(i & u & u' & Hi & -> & _ & He & Hu)
       |(i & ->)]]].
  - done.
  - rewrite !fmap_app. simpl. split; apply NoDup_app; (split; [done|]);
      (split; [|apply NoDup_singleton]); intros v Hv Hv';
      apply list_elem_of_singleton in Hv'; subst v;
      (eapply filter_by_None_not_in; [|exact Hv]); done.
  - rewrite !list_fmap_insert. split.
    + rewrite He, list_insert_id; [done|]. by rewrite list_lookup_fmap, Hi.
    + destruct Hu as [Hu|Hu].
      * rewrite Hu, list_insert_id; [done|]. by rewrite list_lookup_fmap, Hi.
      * apply NoDup_insert_fresh; [done|]. by apply filter_by_None_not_in.
  - rewrite !list_fmap_delete.
    split; (eapply sublist_NoDup; [|apply sublist_delete]; done).
Qed.

(** X8.  Emails and usernames that are pairwise distinct in the users table
    stay so after any sequence of requests to any of the routes. *)
Theorem unique_columns_are_kept (l : list (endpoint * Env * Request))
    (s : State) :
  NoDup ((fun u => getattr u "email") <$> users s) ->
  NoDup ((fun u => getattr u "username") <$> users s) ->
  let s' := serve JWT_SECRET_KEY url_for s l in
  NoDup ((fun u => getattr u "email") <$> users s')
  /\ NoDup ((fun u => getattr u "username") <$> users s').
Proof.
  revert s. induction l as [|[[ep env] request] l IH]; intros s Hemail Huser;
    simpl; [done|].
  destruct (state_after_unique ep env s request Hemail Huser) as [He Hu].
  by apply IH.
Qed.

(** X9.  A request to a protected route made under a token that verifies
    never changes or deletes the record of another user: every record whose
    id differs from the subject of the token is still in the table,
    unchanged, afterwards. *)
Theorem other_records_are_untouched (ep : endpoint) (env : Env) (s s' : State)
    (request : Request) (resp : Response) (refresh fresh_required : bool)
    (jwt : Claims) (other : User) :
  protection ep = Some (refresh, fresh_required) ->
  jwt_required JWT_SECRET_KEY refresh fresh_required s (clock env)
    (authorization request) = Verified jwt ->
  handle JWT_SECRET_KEY url_for ep env s request = Ok (resp, s') ->
  other ∈ users s ->
  getattr other "id" ≠ get_jwt_identity jwt ->
  other ∈ users s'.
Proof.
  intros Hprot Hver Hrun Hother Hid.
  apply list_elem_of_lookup_1 in Hother as [j Hj].
  destruct ep; simpl in Hprot; simplify_eq; unfold_views;
    rewrite Hver in Hrun; split_views;
    try (by eapply list_elem_of_lookup_2).
  - (* update_profile *)
    match goal with
    | Hget : DB_get _ _ = Some _ |- _ =>
        apply DB_get_lookup in Hget as [Hrow Hsubject]
    end.
    eapply list_elem_of_lookup_2. rewrite list_lookup_insert_ne; [done|].
    intros ->. congruence.
  - (* change_password *)
    match goal with
    | Hget : DB_get _ _ = Some _ |- _ =>
        apply DB_get_lookup in Hget as [Hrow Hsubject]
    end.
    eapply list_elem_of_lookup_2. rewrite list_lookup_insert_ne; [done|].
    intros ->. congruence.
  - (* delete_user *)
    match goal with
    | Hfind : list_find _ _ = Some (?n, _),
      Hsame : bool_decide (_ ≠ _) = false |- _ =>
        apply list_find_Some in Hfind as (Hrow & Hsubject & _);
        apply bool_decide_eq_false_1 in Hsame;
        assert (j ≠ n)
          by (intros ->; apply Hsame; intros Heq; apply Hid; congruence);
        destruct (decide (j < n)) as [Hlt|Hge]
    end.
    + eapply list_elem_of_lookup_2. by rewrite list_lookup_delete_lt.
    + destruct j as [|j]; [lia|].
      eapply (list_elem_of_lookup_2 _ j).
      by rewrite list_lookup_delete_ge by lia.
Qed.

End TableInvariants.

(** ** Accounts through their life *)

Section AccountProperties.
Context `{Bcrypt}.
Variable JWT_SECRET_KEY : string.
Variable url_for : string -> string.

(** X7.  After a registration answered 201, a login with the same email and
    password (which bcrypt accepts against the hash just derived from it)
    answers 200 and issues tokens for the id returned by the
    registration. *)
Theorem registered_user_can_log_in (env env' : Env) (s s' : State)
    (request request' : Request) (body : json) (email password : string) :
  register env s request = Ok ((body, 201), s') ->
  dict_get (data request) "email" = PStr email ->
  dict_get (data request) "password" = PStr password ->
  dict_get (data request') "email" = PStr email ->
  dict_get (data request') "password" = PStr password ->
  (forall hashed, hashpw password (gensalt env) = Ok hashed ->
                  checkpw password hashed = Ok true) ->
  exists body' access_token,
    login JWT_SECRET_KEY env' s' request' = Ok ((body', 200), s')
    /\ json_field body "userId" = Some (JStr (uuid4 env))
    /\ json_field body' "access_token" = Some (JTok access_token)
    /\ get_jwt_identity (payload access_token) = PStr (uuid4 env).
Proof.
  intros Hrun He Hp He' Hp' Hcheck.
  destruct (register_201 _ _ _ _ _ Hrun)
    as (username & password0 & hashed & _ & _ & _ & Hte & Hp0 & Hpne & Hhash
        & Hfree & _ & -> & ->).
  assert (password0 = password) as -> by congruence.
  rewrite He in Hfree, Hte. apply filter_by_None in Hfree.
  apply truthy_PStr_nonempty in Hte. rewrite He.
  set (user := <["password_hash" := PStr hashed]> _).
  assert (Hfind : DB_filter_by (DB_new_save s user) "email" (PStr email)
                  = Some (List.length (users s), user)).
  { eapply filter_by_appended; [done|done|].
    unfold user, getattr.
    rewrite lookup_insert_ne by done. by rewrite lookup_insert_eq. }
  assert (Hver : verify_password user (PStr password) = Ok true).
  { unfold verify_password, user, getattr. simpl.
    rewrite lookup_insert_eq. simpl. by apply Hcheck. }
  assert (Hid : getattr user "id" = PStr (uuid4 env)).
  { unfold user, User_init, getattr, object_setattr.
    rewrite !lookup_insert_ne by done. by rewrite lookup_insert_eq. }
  unfold login. rewrite load_data_inr by (by eapply dict_get_PStr_nonempty).
  rewrite He', Hp', !truthy_nonempty by done.
  simpl. rewrite Hfind. simpl. rewrite Hver. simpl.
  eexists _, _. split; [reflexivity|]. rewrite Hid. by simpl.
Qed.

(** What the password-change route did when it answered 200. *)
Lemma change_password_200 (env : Env) (s s' : State) (request : Request)
    (body : json) :
  change_password JWT_SECRET_KEY env s request = Ok ((body, 200), s') ->
  exists jwt i user new_password hashed,
    jwt_required JWT_SECRET_KEY false true s (clock env)
      (authorization request) = Verified jwt
    /\ DB_get s (get_jwt_identity jwt) = Some (i, user)
    /\ verify_password user (dict_get (data request) "current_password")
       = Ok true
    /\ dict_get (data request) "new_password" = PStr new_password
    /\ dict_get (data request) "confirm_password" = PStr new_password
    /\ (utf8_length new_password <? 6)%nat = false
    /\ hashpw new_password (gensalt env) = Ok hashed
    /\ s' = DB_update_save s i (<["password_hash" := PStr hashed]> user).
Proof.
  unfold change_password. intros Hrun.
  destruct (jwt_required JWT_SECRET_KEY false true s (clock env)
              (authorization request)) as [jwt|e] eqn:Hver;
    [|by destruct e; simplify_eq].
  destruct (DB_get s (get_jwt_identity jwt)) as [[i user]|] eqn:Hget;
    [|simplify_eq].
  destruct (is_json request); simpl in Hrun; [|simplify_eq].
  destruct (bool_decide (data request = ∅)); [simplify_eq|].
  destruct (truthy (dict_get (data request) "current_password"));
    simpl in Hrun; [|simplify_eq].
  destruct (truthy (dict_get (data request) "new_password")) eqn:Hnew;
    simpl in Hrun; [|simplify_eq].
  destruct (truthy (dict_get (data request) "confirm_password"));
    simpl in Hrun; [|simplify_eq].
  destruct (verify_password user _) as [[|]|e] eqn:Hcheck; simpl in Hrun;
    [|simplify_eq|simplify_eq].
  destruct (bool_decide (_ ≠ _)) eqn:Hsame; [simplify_eq|].
  apply bool_decide_eq_false_1 in Hsame.
  destruct (len (dict_get (data request) "new_password")) as [n|e] eqn:Hlen;
    simpl in Hrun; [|simplify_eq].
  apply len_Ok in Hlen as (new_password & Hnew' & ->).
  destruct (utf8_length new_password <? 6)%nat eqn:Hshort; [simplify_eq|].
  destruct (User_setattr (gensalt env) user "password" _) as [user'|e]
    eqn:Hset; simpl in Hrun; [|simplify_eq].
  destruct (User_setattr_password_Ok _ _ _ _ Hset Hnew)
    as (pw & hashed & Hpw & _ & Hhash & ->).
  assert (pw = new_password) as -> by congruence.
  injection Hrun as _ <-.
  exists jwt, i, user, new_password, hashed.
  split_and!; try done.
  destruct (decide (dict_get (data request) "new_password"
                    = dict_get (data request) "confirm_password"));
    [congruence|by destruct Hsame].
Qed.

(** X10.  What a 200 of the password-change route guarantees: the token
    verified as a fresh one, the record of its subject exists, the current
    password verified against the stored hash, the new password (given
    twice) is a string of at least six characters that bcrypt hashed, and
    the state differs only by the [password_hash] of that record, now that
    hash; a login with the record's email and the new password then
    answers 200 when the email leads to that record and bcrypt accepts the
    new password against its hash. *)
Theorem change_password_guarantee (env : Env) (s s' : State)
    (request : Request) (body : json) :
  change_password JWT_SECRET_KEY env s request = Ok ((body, 200), s') ->
  exists jwt i user new_password hashed,
    jwt_required JWT_SECRET_KEY false true s (clock env)
      (authorization request) = Verified jwt
    /\ fresh jwt = true
    /\ DB_get s (get_jwt_identity jwt) = Some (i, user)
    /\ verify_password user (dict_get (data request) "current_password")
       = Ok true
    /\ dict_get (data request) "new_password" = PStr new_password
    /\ dict_get (data request) "confirm_password" = PStr new_password
    /\ len (PStr new_password) = Ok (utf8_length new_password)
    /\ 6 <= utf8_length new_password
    /\ hashpw new_password (gensalt env) = Ok hashed
    /\ s' = DB_update_save s i (<["password_hash" := PStr hashed]> user)
    /\ forall env' request' email,
         DB_filter_by s "email" (PStr email) = Some (i, user) ->
         email ≠ "" ->
         dict_get (data request') "email" = PStr email ->
         dict_get (data request') "password" = PStr new_password ->
         checkpw new_password hashed = Ok true ->
         exists body',
           login JWT_SECRET_KEY env' s' request' = Ok ((body', 200), s').
Proof.
  intros Hrun.
  destruct (change_password_200 _ _ _ _ _ Hrun)
    as (jwt & i & user & new_password & hashed & Hver & Hget & Hcur & Hnew
        & Hconf & Hlen & Hhash & ->).
  destruct (jwt_required_Verified _ _ _ _ _ _ _ Hver)
    as (tok & _ & _ & _ & _ & _ & Hfresh & _).
  apply Nat.ltb_ge in Hlen.
  pose proof (length_ge_nonempty _ Hlen) as Hne.
  exists jwt, i, user, new_password, hashed.
  split_and!; try done; [by apply Hfresh|].
  intros env' request' email Hfind Hene He Hp Hcheck.
  unfold login. rewrite load_data_inr by (by eapply dict_get_PStr_nonempty).
  rewrite He, Hp, !truthy_nonempty by done. simpl.
  erewrite filter_by_updated_row; [|exact Hfind|].
  - unfold verify_password, getattr. simpl.
    rewrite lookup_insert_eq. simpl. rewrite Hcheck. simpl. by eexists.
  - unfold getattr. rewrite lookup_insert_ne by done.
    apply list_find_Some in Hfind as (_ & Hmail & _). exact Hmail.
Qed.

(** X11.  The profile-update route refuses, with a 400 and no change, a
    username held by any record, the caller's own current username
    included. *)
Theorem update_profile_refuses_held_username (env : Env) (s : State)
    (request : Request) (jwt : Claims) (i : nat) (user holder : User)
    (username : string) :
  jwt_required JWT_SECRET_KEY false false s (clock env)
    (authorization request) = Verified jwt ->
  DB_get s (get_jwt_identity jwt) = Some (i, user) ->
  is_json request = true ->
  dict_get (data request) "username" = PStr username ->
  3 <= utf8_length username <= 30 ->
  holder ∈ users s ->
  getattr holder "username" = PStr username ->
  update_profile JWT_SECRET_KEY env s request
  = Ok ((jsonify [("error", JStr "Username already taken")], 400), s).
Proof.
  intros Hver Hget Hjson Hname [Hlo Hhi] Hholder Hheld.
  unfold update_profile. rewrite Hver, Hget, Hjson. simpl.
  rewrite bool_decide_eq_false_2 by (by eapply dict_get_PStr_nonempty).
  assert (Hne : username ≠ "") by (destruct username; simpl in *; [lia|done]).
  rewrite Hname, truthy_nonempty by done. simpl.
  rewrite (proj2 (Nat.ltb_ge _ _) Hlo).
  rewrite (proj2 (Nat.ltb_ge _ _)) by lia. simpl.
  rewrite bool_decide_eq_true_2; [done|].
  intros Hnone%filter_by_None_not_in. apply Hnone.
  apply list_elem_of_fmap. by exists holder.
Qed.

(** X12.  After an account deletion answered 200, in a table whose ids and
    emails are pairwise distinct, the record is gone: no record has the
    deleted id or its email, a login with that email answers 401 whatever
    the password, and the profile route answers 404 to any token of the
    deleted user that still verifies. *)
Theorem deleted_account_is_gone (env : Env) (s s' : State) (request : Request)
    (user_id : string) (body : json) :
  delete_user JWT_SECRET_KEY env s request user_id = Ok ((body, 200), s') ->
  NoDup ((fun u => getattr u "id") <$> users s) ->
  NoDup ((fun u => getattr u "email") <$> users s) ->
  exists i user,
    users s !! i = Some user
    /\ getattr user "id" = PStr user_id
    /\ users s' = delete i (users s)
    /\ DB_get s' (PStr user_id) = None
    /\ DB_filter_by s' "email" (getattr user "email") = None
    /\ (forall env' request',
          dict_get (data request') "email" = getattr user "email" ->
          truthy (dict_get (data request') "email") = true ->
          truthy (dict_get (data request') "password") = true ->
          login JWT_SECRET_KEY env' s' request'
          = Ok ((jsonify [("error", JStr "Invalid email or password")], 401),
                s'))
    /\ (forall env' request' jwt',
          jwt_required JWT_SECRET_KEY false false s' (clock env')
            (authorization request') = Verified jwt' ->
          get_jwt_identity jwt' = PStr user_id ->
          get_profile JWT_SECRET_KEY env' s' request'
          = Ok ((jsonify [("error", JStr "User not found")], 404), s')).
Proof.
  unfold delete_user. intros Hrun Hids Hemails.
  destruct (jwt_required JWT_SECRET_KEY false true s (clock env)
              (authorization request)) as [jwt|e] eqn:Hver;
    [|by destruct e; simplify_eq].
  destruct (bool_decide (get_jwt_identity jwt ≠ PStr user_id));
    [simplify_eq|].
  destruct (DB_get s (PStr user_id)) as [[i user]|] eqn:Hget; [|simplify_eq].
  injection Hrun as _ <-.
  apply DB_get_lookup in Hget as [Hrow Hid].
  exists i, user.
  assert (Hnoid : DB_get (DB_delete_save
                            (revoke_token s (clock env) (jti jwt) (type jwt))
                            i user) (PStr user_id) = None).
  { unfold DB_get. simpl. apply not_in_filter_by_None. rewrite <- Hid.
    by apply (NoDup_fmap_delete_fresh (fun u => getattr u "id")). }
  assert (Hnomail : DB_filter_by
                      (DB_delete_save
                         (revoke_token s (clock env) (jti jwt) (type jwt))
                         i user) "email" (getattr user "email") = None).
  { unfold DB_filter_by. simpl. apply not_in_filter_by_None.
    by apply (NoDup_fmap_delete_fresh (fun u => getattr u "email")). }
  split_and!; try done.
  - intros env' request' He Hte Htp. unfold login.
    rewrite load_data_inr by (by eapply dict_get_nonempty).
    rewrite Hte, Htp, He. simpl. by rewrite Hnomail.
  - intros env' request' jwt' Hver' Hsub. unfold get_profile.
    by rewrite Hver', Hsub, Hnoid.
Qed.

(** X14.  Revoking the same id twice is harmless: the blocklist after the
    second call is what that call alone would have produced, and when the
    second call is not earlier than the first every id that read as revoked
    after the first call, at any instant, reads as revoked after the
    second. *)
Theorem revoke_twice_is_harmless (s : State) (now now' t : Z)
    (id token_type key value : string) :
  (now <= now')%Z ->
  redis_get (jwt_redis_blocklist (revoke_token s now id token_type)) t key
  = Some value ->
  let twice := revoke_token (revoke_token s now id token_type) now' id
                 token_type in
  jwt_redis_blocklist twice
  = jwt_redis_blocklist (revoke_token s now' id token_type)
  /\ users twice = users s
  /\ redis_get (jwt_redis_blocklist twice) t key = Some value.
Proof.
  intros Hle Hget. simpl. unfold redis_set. rewrite insert_insert_eq.
  split; [done|]. split; [done|].
  simpl in Hget. unfold redis_get, redis_set in *.
  destruct (decide (id = key)) as [->|Hne].
  - rewrite lookup_insert_eq in Hget. rewrite lookup_insert_eq.
    destruct (t <=? now + ttl token_type)%Z eqn:Hlt; [|discriminate].
    apply Z.leb_le in Hlt. by rewrite (proj2 (Z.leb_le _ _)) by lia.
  - rewrite lookup_insert_ne in Hget by done.
    by rewrite lookup_insert_ne by done.
Qed.

(** X15.  A second reset request for the same email replaces the reset
    token of the record: the first token, different from the second, no
    longer confirms anything (400, "Invalid or expired token", no change).
    The tokens drawn are non-empty and the first is held by no record
    before. *)
Theorem second_reset_request_supersedes (env1 env2 env3 : Env) (s : State)
    (request confirm : Request) (email new_password : string) (i : nat)
    (user : User) :
  dict_get (data request) "email" = PStr email ->
  email ≠ "" ->
  DB_filter_by s "email" (PStr email) = Some (i, user) ->
  uuid4 env1 ≠ "" ->
  uuid4 env1 ≠ uuid4 env2 ->
  DB_filter_by s "reset_token" (PStr (uuid4 env1)) = None ->
  dict_get (data confirm) "token" = PStr (uuid4 env1) ->
  dict_get (data confirm) "new_password" = PStr new_password ->
  dict_get (data confirm) "confirm_password" = PStr new_password ->
  6 <= utf8_length new_password ->
  exists body1 s1 body2 s2 user2,
    request_password_reset url_for env1 s request = Ok ((body1, 200), s1)
    /\ request_password_reset url_for env2 s1 request = Ok ((body2, 200), s2)
    /\ users s2 !! i = Some user2
    /\ getattr user2 "reset_token" = PStr (uuid4 env2)
    /\ getattr user2 "password_hash" = getattr user "password_hash"
    /\ reset_password_with_token url_for env3 s2 confirm
       = Ok ((jsonify [("error", JStr "Invalid or expired token")], 400), s2).
Proof.
  intros Hemail Hne Hfind Htok Hdiff Hfresh Hd1 Hd2 Hd3 Hlen.
  destruct (filter_by_lookup _ _ _ _ _ Hfind) as [Hrow Hi].
  pose proof (length_ge_nonempty _ Hlen) as Hnew_ne.
  set (user1 := object_setattr user "reset_token" (PStr (uuid4 env1))).
  set (user2 := object_setattr user1 "reset_token" (PStr (uuid4 env2))).
  assert (Hreq : forall env st k u,
            DB_filter_by st "email" (PStr email) = Some (k, u) ->
            request_password_reset url_for env st request
            = Ok ((jsonify [("message", JStr "Password reset token generated");
                            ("reset_token", JStr (uuid4 env));
                            ("_links", JObj [("reset", JObj [("href",
                               JStr (url_for
                                  "app_views.reset_password_with_token"))])])],
                   200),
                  DB_update_save st k
                    (object_setattr u "reset_token" (PStr (uuid4 env))))).
  { intros env st k u Hst. unfold request_password_reset.
    rewrite load_data_inr by (by eapply dict_get_PStr_nonempty).
    rewrite Hemail, truthy_nonempty, Hst by done. reflexivity. }
  assert (Hfind1 : DB_filter_by (DB_update_save s i user1) "email" (PStr email)
                   = Some (i, user1)).
  { apply (filter_by_updated_row _ _ _ _ user); [done|].
    unfold user1, object_setattr, getattr. rewrite lookup_insert_ne by done.
    apply list_find_Some in Hfind as (_ & Hmail & _). exact Hmail. }
  eexists _, (DB_update_save s i user1), _,
    (DB_update_save (DB_update_save s i user1) i user2), user2.
  split; [by apply Hreq|]. split; [by apply Hreq|].
  split; [apply list_lookup_insert_eq; simpl; by rewrite length_insert|].
  split; [unfold user2, getattr, object_setattr; by rewrite lookup_insert_eq|].
  split.
  { unfold user2, user1, getattr, object_setattr.
    by rewrite !lookup_insert_ne by done. }
  unfold reset_password_with_token.
  rewrite load_data_inr by (by eapply dict_get_PStr_nonempty).
  rewrite Hd1, Hd2, Hd3, !truthy_nonempty by done. simpl.
  rewrite bool_decide_eq_false_2 by (intros Hc; by apply Hc).
  rewrite (proj2 (Nat.ltb_ge _ _) Hlen).
  rewrite filter_by_misses_updated; [done|done|].
  unfold user2, getattr, object_setattr. rewrite lookup_insert_eq. simpl.
  congruence.
Qed.

End AccountProperties.

(** ** What the answers guarantee *)

Section AnswerProperties.
Context `{Bcrypt}.
Variable JWT_SECRET_KEY : string.
Variable url_for : string -> string.

(** X16.  The refresh route answers 200 only to a token of type refresh
    that is signed with the secret, unexpired and not on the blocklist; the
    access token it issues is for the subject of that refresh token, is not
    fresh, and lives one access lifetime from the instant of the request.
    An access token cannot be traded for a new one. *)
Theorem refresh_needs_refresh_token (env : Env) (s s' : State)
    (request : Request) (body : json) :
  refresh_token JWT_SECRET_KEY env s request = Ok ((body, 200), s') ->
  exists tok,
    authorization request = Bearer tok
    /\ type (payload tok) = "refresh"
    /\ signed_with tok = JWT_SECRET_KEY
    /\ (clock env < exp (payload tok))%Z
    /\ redis_get (jwt_redis_blocklist s) (clock env) (jti (payload tok)) = None
    /\ body = jsonify [("access_token", JTok
                 {| payload := {| user_id := get_jwt_identity (payload tok);
                                  jti := uuid4 env; type := "access";
                                  fresh := false; iat := clock env;
                                  exp := (clock env + 3600)%Z |};
                    signed_with := JWT_SECRET_KEY |})]
    /\ s' = s.
Proof.
  unfold refresh_token. intros Hrun.
  destruct (jwt_required JWT_SECRET_KEY true false s (clock env)
              (authorization request)) as [jwt|e] eqn:Hver;
    [|by destruct e; simplify_eq].
  destruct (jwt_required_Verified _ _ _ _ _ _ _ Hver)
    as (tok & Hauth & -> & Hsig & Hexp & Hty & _ & Hfree).
  injection Hrun as <- <-. exists tok. split_and!; auto.
Qed.

(** X17.  A fresh access token comes only out of a login whose password was
    verified: whenever the answer of any route carries an access token with
    fresh = true, the route is the login route, a record has the email of
    the request, [verify_password] accepted the password of the request
    against it, and the token is for the id of that record. *)
Theorem fresh_token_needs_password (ep : endpoint) (env : Env) (s s' : State)
    (request : Request) (body : json) (status : nat) (tok : Token) :
  handle JWT_SECRET_KEY url_for ep env s request = Ok ((body, status), s') ->
  json_field body "access_token" = Some (JTok tok) ->
  fresh (payload tok) = true ->
  ep = POST_auth_login
  /\ exists i user,
       DB_filter_by s "email" (dict_get (data request) "email") = Some (i, user)
       /\ verify_password user (dict_get (data request) "password") = Ok true
       /\ get_jwt_identity (payload tok) = getattr user "id".
Proof.
  intros Hrun Hfield Hfresh.
  destruct ep; unfold_views; unfold load_data in *; split_views;
    try match goal with
        | e : VerificationError |- _ =>
            destruct e;
            unfold jwt_error_response, missing_token_callback,
              invalid_token_callback, expired_token_callback,
              needs_fresh_token_callback, revoked_token_callback in *;
            by simplify_eq/=
        end.
  all: split; [done|]; eexists _, _; split; [done|];
    match goal with
    | Hv : verify_password _ _ = Ok ?b |- _ => by destruct b
    end.
Qed.

(** X18.  What a 200 of the reset-confirmation route guarantees, for a
    request whose token is a string: the token is not empty, a record held
    exactly that token as its pending reset token, the new password (given
    twice) is a string of at least six characters that bcrypt hashed, and
    the state differs only in that record, which now has that hash and no
    reset token.  A record without a pending reset token is never the one
    updated. *)
Theorem reset_needs_pending_token (env : Env) (s s' : State)
    (request : Request) (body : json) (token : string) :
  dict_get (data request) "token" = PStr token ->
  reset_password_with_token url_for env s request = Ok ((body, 200), s') ->
  exists new_password hashed i user,
    token ≠ ""
    /\ dict_get (data request) "new_password" = PStr new_password
    /\ dict_get (data request) "confirm_password" = PStr new_password
    /\ 6 <= utf8_length new_password
    /\ hashpw new_password (gensalt env) = Ok hashed
    /\ users s !! i = Some user
    /\ getattr user "reset_token" = PStr token
    /\ getattr user "reset_token" ≠ PNone
    /\ s' = DB_update_save s i
              (<["reset_token" := PNone]>
                 (<["password_hash" := PStr hashed]> user)).
Proof.
  unfold reset_password_with_token. intros Htok' Hrun.
  destruct (load_data request) as [resp|d] eqn:Hload;
    [unfold load_data in Hload; repeat case_match; simplify_eq|].
  apply load_data_data in Hload as ->. rewrite Htok' in Hrun.
  destruct (truthy (PStr token)) eqn:Htok; simpl in Hrun; [|simplify_eq].
  apply truthy_PStr_nonempty in Htok.
  destruct (truthy (dict_get (data request) "new_password")) eqn:Hnew;
    simpl in Hrun; [|simplify_eq].
  destruct (truthy (dict_get (data request) "confirm_password")) eqn:Hconf;
    simpl in Hrun; [|simplify_eq].
  destruct (bool_decide (_ ≠ _)) eqn:Hsame; [simplify_eq|].
  apply bool_decide_eq_false_1 in Hsame.
  destruct (len (dict_get (data request) "new_password")) as [n|e] eqn:Hlen;
    simpl in Hrun; [|simplify_eq].
  apply len_Ok in Hlen as (new_password & Hnew' & ->).
  destruct (utf8_length new_password <? 6)%nat eqn:Hshort; [simplify_eq|].
  apply Nat.ltb_ge in Hshort.
  destruct (DB_filter_by s "reset_token" (PStr token)) as [[i user]|]
    eqn:Hfind; [|simplify_eq].
  destruct (User_setattr (gensalt env) user "password" _) as [user'|e]
    eqn:Hset; simpl in Hrun; [|simplify_eq].
  destruct (User_setattr_password_Ok _ _ _ _ Hset Hnew)
    as (pw & hashed & Hpw & _ & Hhash & ->).
  assert (pw = new_password) as -> by congruence.
  unfold User_setattr in Hrun. simpl in Hrun.
  injection Hrun as _ <-.
  exists new_password, hashed, i, user.
  apply list_find_Some in Hfind as (Hrow & Hheld & _).
  assert (Hheld' : getattr user "reset_token" = PStr token).
  { exact Hheld. }
  split_and!; try done.
  - destruct (decide (dict_get (data request) "new_password"
                      = dict_get (data request) "confirm_password"));
      [congruence|by destruct Hsame].
  - by rewrite Hheld'.
Qed.

End AnswerProperties.

(** ** Every record keeps a hash *)

Section HashInvariant.
Context `{Bcrypt}.
Variable JWT_SECRET_KEY : string.
Variable url_for : string -> string.





End HashInvariant.

(** * The further properties on the sample data *)

Lemma failed_request_keeps_state_witness :
  exists s',
    sample_handle POST_auth_login (sample_env 10) sample_state
      (login_request "a@x.com" "wrong")
    = Ok ((jsonify [("error", JStr "Invalid email or password")], 401), s')
    /\ 401 ≠ 200 /\ 401 ≠ 201
    /\ s' = sample_state.
Proof.
  exists sample_state.
  assert (Hrun : sample_handle POST_auth_login (sample_env 10) sample_state
                   (login_request "a@x.com" "wrong")
                 = Ok ((jsonify [("error", JStr "Invalid email or password")],
                        401), sample_state)) by (vm_compute; reflexivity).
  assert (H200 : 401 ≠ 200) by lia.
  assert (H201 : 401 ≠ 201) by lia.
  split; [exact Hrun|]. split; [exact H200|]. split; [exact H201|].
  exact (@failed_request_keeps_state toy_bcrypt sample_secret sample_url_for
           _ _ _ _ _ _ Hrun H200 H201).
Defined.

Lemma token_routes_are_read_only_witness :
  In GET_auth_token_status
    [POST_auth_login; POST_auth_token_refresh; GET_users_me;
     GET_auth_verify_token; GET_auth_token_status]
  /\ exists resp s',
       sample_handle GET_auth_token_status (sample_env 10) sample_state
         (sample_request [] (Bearer sample_access)) = Ok (resp, s')
       /\ resp.2 = 200
       /\ s' = sample_state.
Proof.
  assert (Hin : In GET_auth_token_status
                  [POST_auth_login; POST_auth_token_refresh; GET_users_me;
                   GET_auth_verify_token; GET_auth_token_status])
    by (simpl; auto 10).
  split; [exact Hin|].
  destruct (sample_handle GET_auth_token_status (sample_env 10) sample_state
              (sample_request [] (Bearer sample_access)))
    as [[resp s']|e] eqn:Hrun; [|vm_compute in Hrun; discriminate].
  exists resp, s'. split; [reflexivity|].
  split; [vm_compute in Hrun; by injection Hrun as <- _|].
  exact (@token_routes_are_read_only toy_bcrypt sample_secret sample_url_for
           _ _ _ _ _ _ Hin Hrun).
Defined.

Lemma only_revocation_writes_blocklist_witness :
  PUT_users_me_password ≠ POST_auth_logout
  /\ (forall user_id, PUT_users_me_password ≠ DELETE_users user_id)
  /\ exists resp s',
       sample_handle PUT_users_me_password (sample_env 10) sample_state
         change_to_secret2 = Ok (resp, s')
       /\ resp.2 = 200
       /\ jwt_redis_blocklist s' = jwt_redis_blocklist sample_state
       /\ jwt_required sample_secret true false s' 20 (Bearer sample_refresh)
          = Verified (payload sample_refresh).
Proof.
  assert (H1 : PUT_users_me_password ≠ POST_auth_logout) by discriminate.
  assert (H2 : forall user_id, PUT_users_me_password ≠ DELETE_users user_id)
    by (intros; discriminate).
  split; [exact H1|]. split; [exact H2|].
  destruct (sample_handle PUT_users_me_password (sample_env 10) sample_state
              change_to_secret2)
    as [[resp s']|e] eqn:Hrun; [|vm_compute in Hrun; discriminate].
  exists resp, s'. split; [reflexivity|].
  split; [vm_compute in Hrun; by injection Hrun as <- _|].
  destruct (@only_revocation_writes_blocklist toy_bcrypt sample_secret
              sample_url_for _ _ _ _ _ _ H1 H2 Hrun) as [Hbl Hsame].
  split; [exact Hbl|]. rewrite Hsame. vm_compute. reflexivity.
Defined.

Lemma logged_out_token_stays_refused_witness :
  jwt_required sample_secret false false sample_state 100
    (Bearer sample_access) = Verified (payload sample_access)
  /\ Forall (fun r : endpoint * Env * Request =>
               (clock r.1.2 < 100 + ttl (type (payload sample_access)))%Z)
       sample_traffic
  /\ (200 < 100 + ttl (type (payload sample_access)))%Z
  /\ protection GET_users_me ≠ None
  /\ exists e,
       sample_handle GET_users_me (sample_env 200)
         (sample_serve
            (@state_after toy_bcrypt sample_secret sample_url_for
               POST_auth_logout (sample_env 100) sample_state
               (sample_request [] (Bearer sample_access)))
            sample_traffic)
         (sample_request [] (Bearer sample_access))
       = Ok (jwt_error_response e,
             sample_serve
               (@state_after toy_bcrypt sample_secret sample_url_for
                  POST_auth_logout (sample_env 100) sample_state
                  (sample_request [] (Bearer sample_access)))
               sample_traffic)
       /\ (jwt_error_response e).2 = 401.
Proof.
  assert (Hver : jwt_required sample_secret false false sample_state
                   (clock (sample_env 100)) (Bearer sample_access)
                 = Verified (payload sample_access))
    by (vm_compute; reflexivity).
  assert (Htraffic : Forall (fun r : endpoint * Env * Request =>
                       (clock r.1.2
                        < clock (sample_env 100)
                          + ttl (type (payload sample_access)))%Z)
                       sample_traffic)
    by (repeat constructor).
  assert (Ht : (clock (sample_env 200)
                < clock (sample_env 100)
                  + ttl (type (payload sample_access)))%Z) by reflexivity.
  assert (Hprot : protection GET_users_me ≠ None) by discriminate.
  split; [exact Hver|]. split; [exact Htraffic|].
  split; [exact Ht|]. split; [exact Hprot|].
  exact (@logged_out_token_stays_refused toy_bcrypt sample_secret
           sample_url_for (sample_env 100) (sample_env 200) sample_state
           (sample_request [] (Bearer sample_access))
           (sample_request [] (Bearer sample_access)) sample_access
           sample_traffic GET_users_me eq_refl Hver Htraffic Ht eq_refl Hprot).
Defined.

Lemma token_status_never_reports_blacklisted_witness :
  exists body s',
    token_status sample_secret (sample_env 10) sample_state
      (sample_request [] (Bearer sample_access)) = Ok ((body, 200), s')
    /\ json_field body "is_blacklisted" = Some (JBool false).
Proof.
  destruct (token_status sample_secret (sample_env 10) sample_state
              (sample_request [] (Bearer sample_access)))
    as [[[body status] s']|e] eqn:Hrun; [|vm_compute in Hrun; discriminate].
  assert (status = 200) as ->
    by (vm_compute in Hrun; by injection Hrun as _ <- _).
  exists body, s'. split; [reflexivity|].
  exact (token_status_never_reports_blacklisted sample_secret _ _ _ _ _ Hrun).
Defined.

Lemma register_created_witness :
  exists body s',
    @register toy_bcrypt (sample_env 10) sample_state register_carol
    = Ok ((body, 201), s')
    /\ exists user, s' = DB_new_save sample_state user
                    /\ getattr user "password_hash"
                       = PStr "$2b$salt2$secret3"
                    /\ user !! "password" = None.
Proof.
  destruct (@register toy_bcrypt (sample_env 10) sample_state register_carol)
    as [[[body status] s']|e] eqn:Hrun; [|vm_compute in Hrun; discriminate].
  assert (status = 201) as ->
    by (vm_compute in Hrun; by injection Hrun as _ <- _).
  exists body, s'. split; [reflexivity|].
  destruct (@register_created toy_bcrypt _ _ _ _ _ Hrun)
    as (u & p & hashed & _ & _ & _ & _ & Hp & _ & Hhash & _ & _ & Hs & Hnone
        & Hh & _).
  assert (p = "secret3") as -> by (vm_compute in Hp; by injection Hp as <-).
  assert (hashed = "$2b$salt2$secret3") as ->
    by (vm_compute in Hhash; by injection Hhash as <-).
  eexists. split; [exact Hs|]. split; [exact Hh|exact Hnone].
Defined.

Lemma registered_user_can_log_in_witness :
  exists body s',
    @register toy_bcrypt (sample_env 10) sample_state register_carol
    = Ok ((body, 201), s')
    /\ toy_checkpw "secret3" "$2b$salt2$secret3" = Ok true
    /\ exists body',
         @login toy_bcrypt sample_secret (sample_env 20) s'
           (login_request "c@x.com" "secret3") = Ok ((body', 200), s').
Proof.
  destruct (@register toy_bcrypt (sample_env 10) sample_state register_carol)
    as [[[body status] s']|e] eqn:Hrun; [|vm_compute in Hrun; discriminate].
  assert (status = 201) as ->
    by (vm_compute in Hrun; by injection Hrun as _ <- _).
  exists body, s'. split; [reflexivity|].
  assert (Hcheck : forall hashed,
             @hashpw toy_bcrypt "secret3" (gensalt (sample_env 10)) = Ok hashed ->
             @checkpw toy_bcrypt "secret3" hashed = Ok true).
  { intros hashed Hh. vm_compute in Hh. injection Hh as <-. reflexivity. }
  split; [reflexivity|].
  destruct (@registered_user_can_log_in toy_bcrypt sample_secret
              (sample_env 10) (sample_env 20) sample_state s' register_carol
              (login_request "c@x.com" "secret3") body "c@x.com" "secret3"
              Hrun eq_refl eq_refl eq_refl eq_refl Hcheck)
    as (body' & tok & Hlogin & _).
  by exists body'.
Defined.

Lemma unique_columns_are_kept_witness :
  NoDup ((fun u => getattr u "email") <$> users sample_state_bob)
  /\ NoDup ((fun u => getattr u "username") <$> users sample_state_bob)
  /\ NoDup ((fun u => getattr u "email")
            <$> users (sample_serve sample_state_bob sample_traffic))
  /\ NoDup ((fun u => getattr u "username")
            <$> users (sample_serve sample_state_bob sample_traffic)).
Proof.
  assert (He : NoDup ((fun u => getattr u "email") <$> users sample_state_bob))
    by (apply (bool_decide_unpack _); vm_compute; exact I).
  assert (Hu : NoDup ((fun u => getattr u "username")
                      <$> users sample_state_bob))
    by (apply (bool_decide_unpack _); vm_compute; exact I).
  split; [exact He|]. split; [exact Hu|].
  exact (@unique_columns_are_kept toy_bcrypt sample_secret sample_url_for
           sample_traffic sample_state_bob He Hu).
Defined.

Lemma other_records_are_untouched_witness :
  protection PUT_users_me_password = Some (false, true)
  /\ jwt_required sample_secret false true sample_state_bob 10
       (Bearer sample_access) = Verified (payload sample_access)
  /\ bob ∈ users sample_state_bob
  /\ getattr bob "id" ≠ get_jwt_identity (payload sample_access)
  /\ exists resp s',
       sample_handle PUT_users_me_password (sample_env 10) sample_state_bob
         change_to_secret2 = Ok (resp, s')
       /\ resp.2 = 200
       /\ bob ∈ users s'.
Proof.
  assert (Hver : jwt_required sample_secret false true sample_state_bob
                   (clock (sample_env 10)) (authorization change_to_secret2)
                 = Verified (payload sample_access))
    by (vm_compute; reflexivity).
  assert (Hin : bob ∈ users sample_state_bob)
    by (apply (list_elem_of_lookup_2 _ 1); reflexivity).
  assert (Hid : getattr bob "id" ≠ get_jwt_identity (payload sample_access))
    by (vm_compute; discriminate).
  split; [reflexivity|]. split; [exact Hver|].
  split; [exact Hin|]. split; [exact Hid|].
  destruct (sample_handle PUT_users_me_password (sample_env 10)
              sample_state_bob change_to_secret2)
    as [[resp s']|e] eqn:Hrun; [|vm_compute in Hrun; discriminate].
  exists resp, s'. split; [reflexivity|].
  split; [vm_compute in Hrun; by injection Hrun as <- _|].
  exact (@other_records_are_untouched toy_bcrypt sample_secret sample_url_for
           PUT_users_me_password _ _ _ _ _ false true _ bob eq_refl Hver Hrun
           Hin Hid).
Defined.

Lemma change_password_guarantee_witness :
  exists body s',
    @change_password toy_bcrypt sample_secret (sample_env 10) sample_state
      change_to_secret2 = Ok ((body, 200), s')
    /\ exists jwt i user new_password hashed,
         jwt_required sample_secret false true sample_state 10
           (Bearer sample_access) = Verified jwt
         /\ fresh jwt = true
         /\ DB_get sample_state (get_jwt_identity jwt) = Some (i, user)
         /\ 6 <= utf8_length new_password
         /\ toy_hashpw new_password "salt2" = Ok hashed
         /\ s' = DB_update_save sample_state i
                   (<["password_hash" := PStr hashed]> user).
Proof.
  destruct (@change_password toy_bcrypt sample_secret (sample_env 10)
              sample_state change_to_secret2)
    as [[[body status] s']|e] eqn:Hrun; [|vm_compute in Hrun; discriminate].
  assert (status = 200) as ->
    by (vm_compute in Hrun; by injection Hrun as _ <- _).
  exists body, s'. split; [reflexivity|].
  destruct (@change_password_guarantee toy_bcrypt sample_secret _ _ _ _ _ Hrun)
    as (jwt & i & user & new & hashed & Hver & Hfresh & Hget & _ & _ & _ & _
        & Hlen & Hhash & Hs & _).
  exists jwt, i, user, new, hashed. repeat (split; [assumption|]). assumption.
Defined.

Lemma update_profile_refuses_held_username_witness :
  let request := sample_request [("username", "alice")] (Bearer sample_access) in
  jwt_required sample_secret false false sample_state 10
    (authorization request) = Verified (payload sample_access)
  /\ DB_get sample_state (get_jwt_identity (payload sample_access))
     = Some (0, alice)
  /\ dict_get (data request) "username" = PStr "alice"
  /\ 3 <= utf8_length "alice" <= 30
  /\ alice ∈ users sample_state
  /\ getattr alice "username" = PStr "alice"
  /\ @update_profile toy_bcrypt sample_secret (sample_env 10) sample_state
       request
     = Ok ((jsonify [("error", JStr "Username already taken")], 400),
           sample_state).
Proof.
  intros request.
  assert (H1 : jwt_required sample_secret false false sample_state
                 (clock (sample_env 10)) (authorization request)
               = Verified (payload sample_access))
    by (vm_compute; reflexivity).
  assert (H2 : DB_get sample_state (get_jwt_identity (payload sample_access))
               = Some (0, alice)) by (vm_compute; reflexivity).
  assert (H3 : dict_get (data request) "username" = PStr "alice")
    by (vm_compute; reflexivity).
  assert (H4 : 3 <= utf8_length "alice" <= 30) by (simpl; lia).
  assert (H5 : alice ∈ users sample_state)
    by (apply (list_elem_of_lookup_2 _ 0); reflexivity).
  assert (H6 : getattr alice "username" = PStr "alice")
    by (vm_compute; reflexivity).
  do 6 (split; [assumption|]).
  exact (@update_profile_refuses_held_username toy_bcrypt sample_secret
           (sample_env 10) sample_state request _ 0 alice alice "alice"
           H1 H2 eq_refl H3 H4 H5 H6).
Defined.

Lemma deleted_account_is_gone_witness :
  NoDup ((fun u => getattr u "id") <$> users sample_state_bob)
  /\ NoDup ((fun u => getattr u "email") <$> users sample_state_bob)
  /\ exists body s',
       delete_user sample_secret (sample_env 10) sample_state_bob
         (sample_request [] (Bearer sample_access)) "id-1"
       = Ok ((body, 200), s')
       /\ DB_get s' (PStr "id-1") = None
       /\ exists i user,
            users s' = delete i (users sample_state_bob)
            /\ DB_filter_by s' "email" (getattr user "email") = None.
Proof.
  assert (Hid : NoDup ((fun u => getattr u "id") <$> users sample_state_bob))
    by (apply (bool_decide_unpack _); vm_compute; exact I).
  assert (He : NoDup ((fun u => getattr u "email") <$> users sample_state_bob))
    by (apply (bool_decide_unpack _); vm_compute; exact I).
  split; [exact Hid|]. split; [exact He|].
  destruct (delete_user sample_secret (sample_env 10) sample_state_bob
              (sample_request [] (Bearer sample_access)) "id-1")
    as [[[body status] s']|e] eqn:Hrun; [|vm_compute in Hrun; discriminate].
  assert (status = 200) as ->
    by (vm_compute in Hrun; by injection Hrun as _ <- _).
  exists body, s'. split; [reflexivity|].
  destruct (@deleted_account_is_gone toy_bcrypt sample_secret _ _ _ _ _ _
              Hrun Hid He)
    as (i & user & _ & _ & Husers & Hgone & Hmail & _).
  split; [exact Hgone|]. exists i, user. split; [exact Husers|exact Hmail].
Defined.

Lemma revoke_twice_is_harmless_witness :
  (100 <= 150)%Z
  /\ redis_get
       (jwt_redis_blocklist (revoke_token sample_state 100 "j-a" "access"))
       120 "j-a" = Some ""
  /\ redis_get
       (jwt_redis_blocklist
          (revoke_token (revoke_token sample_state 100 "j-a" "access")
             150 "j-a" "access"))
       120 "j-a" = Some "".
Proof.
  assert (Hle : (100 <= 150)%Z) by lia.
  assert (Hget : redis_get
                   (jwt_redis_blocklist
                      (revoke_token sample_state 100 "j-a" "access"))
                   120 "j-a" = Some "") by (vm_compute; reflexivity).
  split; [exact Hle|]. split; [exact Hget|].
  destruct (revoke_twice_is_harmless sample_state 100 150 120 "j-a" "access"
              "j-a" "" Hle Hget) as (_ & _ & Hstill).
  exact Hstill.
Defined.

Lemma second_reset_request_supersedes_witness :
  let request := sample_request [("email", "a@x.com")] NoHeader in
  let env2 := {| clock := 20; uuid4 := "j-b"; uuid4' := ""; gensalt := "s" |} in
  DB_filter_by sample_state "email" (PStr "a@x.com") = Some (0, alice)
  /\ DB_filter_by sample_state "reset_token" (PStr "j-a") = None
  /\ 6 <= utf8_length "secret2"
  /\ exists body1 s1 body2 s2 user2,
       @request_password_reset toy_bcrypt sample_url_for (sample_env 10)
         sample_state request = Ok ((body1, 200), s1)
       /\ @request_password_reset toy_bcrypt sample_url_for env2 s1 request
          = Ok ((body2, 200), s2)
       /\ users s2 !! 0 = Some user2
       /\ getattr user2 "reset_token" = PStr "j-b"
       /\ @reset_password_with_token toy_bcrypt sample_url_for (sample_env 30)
            s2 (confirm_with "j-a")
          = Ok ((jsonify [("error", JStr "Invalid or expired token")], 400),
                s2).
Proof.
  intros request env2.
  assert (H1 : DB_filter_by sample_state "email" (PStr "a@x.com")
               = Some (0, alice)) by (vm_compute; reflexivity).
  assert (H2 : DB_filter_by sample_state "reset_token" (PStr "j-a") = None)
    by (vm_compute; reflexivity).
  assert (H3 : 6 <= utf8_length "secret2") by (simpl; lia).
  do 3 (split; [assumption|]).
  destruct (@second_reset_request_supersedes toy_bcrypt sample_url_for
              (sample_env 10) env2 (sample_env 30) sample_state request
              (confirm_with "j-a") "a@x.com" "secret2" 0 alice)
    as (body1 & s1 & body2 & s2 & user2 & Hr1 & Hr2 & Hrow & Htok & _ & Hold);
    try (reflexivity || assumption || discriminate).
  exists body1, s1, body2, s2, user2.
  repeat (split; [assumption|]). assumption.
Defined.

Lemma refresh_needs_refresh_token_witness :
  exists body s',
    refresh_token sample_secret (sample_env 50) sample_state
      (sample_request [] (Bearer sample_refresh)) = Ok ((body, 200), s')
    /\ exists tok,
         authorization (sample_request [] (Bearer sample_refresh)) = Bearer tok
         /\ type (payload tok) = "refresh"
         /\ s' = sample_state.
Proof.
  destruct (refresh_token sample_secret (sample_env 50) sample_state
              (sample_request [] (Bearer sample_refresh)))
    as [[[body status] s']|e] eqn:Hrun; [|vm_compute in Hrun; discriminate].
  assert (status = 200) as ->
    by (vm_compute in Hrun; by injection Hrun as _ <- _).
  exists body, s'. split; [reflexivity|].
  destruct (refresh_needs_refresh_token sample_secret _ _ _ _ _ Hrun)
    as (tok & Hauth & Hty & _ & _ & _ & _ & Hs).
  exists tok. split; [exact Hauth|]. split; [exact Hty|exact Hs].
Defined.

Lemma fresh_token_needs_password_witness :
  let body :=
    jsonify [("message", JStr "Login successful");
             ("access_token", JTok sample_access);
             ("refresh_token", JTok sample_refresh);
             ("user", JObj [("id", JStr "id-1"); ("username", JStr "alice");
                            ("email", JStr "a@x.com")])] in
  sample_handle POST_auth_login (sample_env 0) sample_state
    (login_request "a@x.com" "secret1") = Ok ((body, 200), sample_state)
  /\ json_field body "access_token" = Some (JTok sample_access)
  /\ fresh (payload sample_access) = true
  /\ exists i user,
       DB_filter_by sample_state "email" (PStr "a@x.com") = Some (i, user)
       /\ @verify_password toy_bcrypt user (PStr "secret1") = Ok true.
Proof.
  intros body.
  assert (Hrun : sample_handle POST_auth_login (sample_env 0) sample_state
                   (login_request "a@x.com" "secret1")
                 = Ok ((body, 200), sample_state))
    by (vm_compute; reflexivity).
  assert (Hfield : json_field body "access_token" = Some (JTok sample_access))
    by reflexivity.
  assert (Hfresh : fresh (payload sample_access) = true) by reflexivity.
  do 3 (split; [assumption|]).
  destruct (@fresh_token_needs_password toy_bcrypt sample_secret
              sample_url_for _ _ _ _ _ _ _ _ Hrun Hfield Hfresh)
    as (_ & i & user & Hfind & Hcheck & _).
  exists i, user. split; [exact Hfind|exact Hcheck].
Defined.

Lemma reset_needs_pending_token_witness :
  exists body s',
    @reset_password_with_token toy_bcrypt sample_url_for (sample_env 20)
      sample_state_pending (confirm_with "j-a") = Ok ((body, 200), s')
    /\ dict_get (data (confirm_with "j-a")) "token" = PStr "j-a"
    /\ exists new_password i user,
         6 <= utf8_length new_password
         /\ users sample_state_pending !! i = Some user
         /\ getattr user "reset_token" = PStr "j-a".
Proof.
  destruct (@reset_password_with_token toy_bcrypt sample_url_for
              (sample_env 20) sample_state_pending (confirm_with "j-a"))
    as [[[body status] s']|e] eqn:Hrun; [|vm_compute in Hrun; discriminate].
  assert (status = 200) as ->
    by (vm_compute in Hrun; by injection Hrun as _ <- _).
  exists body, s'. split; [reflexivity|].
  split; [reflexivity|].
  destruct (@reset_needs_pending_token toy_bcrypt sample_url_for
              (sample_env 20) sample_state_pending s' (confirm_with "j-a")
              body "j-a" eq_refl Hrun)
    as (new & hashed & i & user & _ & _ & _ & Hlen & _ & Hrow & Hheld & _).
  exists new, i, user. repeat (split; [assumption|]). assumption.
Defined.

